(** * plainbox.impl.session.jobs: job state handling

    A shallow embedding of [plainbox/impl/session/jobs.py]: the
    [JobReadinessInhibitor] value class, the shared
    [UndesiredJobReadinessInhibitor], the [OverridableJobField] descriptor,
    the two assign filters and the [JobState] holder, followed by the
    properties the specification states about them.

    Python objects that are shared and may change behind the back of a
    [JobState] (job definitions) live in a store and are held by reference;
    immutable values (inhibitors, resource expressions, strings) are held by
    value. Raising is modelled with a sum type; an attribute assignment, which
    in Python either happens or leaves the object as it was, returns the
    object together with the exception. *)

From Stdlib Require Import ZArith Ascii String List Bool Lia.
From stdpp Require Import base option gmap strings list.

Local Open Scope Z_scope.
Local Open Scope string_scope.

(** ** Exceptions and fallible computations *)

Inductive exn : Type :=
| ValueError (msg : string)
| TypeError (msg : string)
| AttributeError (msg : string)
| KeyError (msg : string)
| IndexError (msg : string)
| AssertionError.

(** A call either raises or returns. *)
Definition fallible (A : Type) : Type := exn + A.

Definition raise {A : Type} (e : exn) : fallible A := inl e.
Definition ret {A : Type} (a : A) : fallible A := inr a.

Definition bind {A B : Type} (m : fallible A) (k : A -> fallible B) : fallible B :=
  match m with
  | inl e => inl e
  | inr a => k a
  end.

Declare Scope py_scope.
Delimit Scope py_scope with py.
Notation "'let*' x ':=' m 'in' k" := (bind m (fun x => k))
  (at level 10, x name, m at level 100, k at level 200) : py_scope.
Local Open Scope py_scope.

Definition raises {A : Type} (m : fallible A) : bool :=
  match m with inl _ => true | inr _ => false end.

Definition is_ValueError {A : Type} (m : fallible A) : bool :=
  match m with inl (ValueError _) => true | _ => false end.

(** ** The Python string builtins the module calls

    A [string] is read as a sequence of code points below 256. *)

Module Py.

Definition quote1 : ascii := "'"%char.
Definition quote2 : ascii := ascii_of_nat 34.
Definition backslash : ascii := "\"%char.

Definition hexdigit (n : N) : ascii :=
  match n with
  | 0 => "0" | 1 => "1" | 2 => "2" | 3 => "3" | 4 => "4" | 5 => "5"
  | 6 => "6" | 7 => "7" | 8 => "8" | 9 => "9" | 10 => "a" | 11 => "b"
  | 12 => "c" | 13 => "d" | 14 => "e" | _ => "f"
  end%N%char.

(** [str.isprintable] on one code point below 256: control characters,
    the no-break space and the soft hyphen are not printable. *)
Definition isprintable (c : ascii) : bool :=
  let n := N_of_ascii c in
  ((32 <=? n) && (n <? 127) || (161 <=? n) && negb (n =? 173))%N.

Fixpoint contains (c : ascii) (s : string) : bool :=
  match s with
  | EmptyString => false
  | String d s' => Ascii.eqb c d || contains c s'
  end.

(** One character of [repr(s)], given the quote that delimits it. *)
Definition repr_char (quote c : ascii) : string :=
  if Ascii.eqb c quote || Ascii.eqb c backslash then
    String backslash (String c EmptyString)
  else if Ascii.eqb c (ascii_of_nat 9) then String backslash "t"
  else if Ascii.eqb c (ascii_of_nat 10) then String backslash "n"
  else if Ascii.eqb c (ascii_of_nat 13) then String backslash "r"
  else if isprintable c then String c EmptyString
  else
    let n := N_of_ascii c in
    String backslash
      (String "x" (String (hexdigit (n / 16)) (String (hexdigit (n mod 16))
                                                      EmptyString))).

Fixpoint repr_body (quote : ascii) (s : string) : string :=
  match s with
  | EmptyString => EmptyString
  | String c s' => repr_char quote c +:+ repr_body quote s'
  end.

(** [repr(s)] for a [str]: single quotes, unless the text holds a single
    quote and no double quote. *)
Definition repr (s : string) : string :=
  let quote :=
    if contains quote1 s && negb (contains quote2 s) then quote2
    else quote1 in
  String quote (repr_body quote s +:+ String quote EmptyString).

(** [tpl.format(args...)] for the replacement fields the module uses: an
    empty field inserts the next argument, a field with the [!r] conversion
    inserts its [repr]. Arguments left over are ignored, a field without an
    argument raises [IndexError]; a brace that opens neither field is copied
    (no template of the module holds one). *)
Fixpoint format (tpl : string) (args : list string) : fallible string :=
  match tpl with
  | EmptyString => ret EmptyString
  | String c1 r1 =>
      if Ascii.eqb c1 "{" then
        match r1 with
        | String c2 r2 =>
            if Ascii.eqb c2 "}" then
              match args with
              | [] => raise (IndexError "Replacement index out of range")
              | a :: args' =>
                  let* rest := format r2 args' in ret (a +:+ rest)
              end
            else
              match r2 with
              | String c3 (String c4 r4) =>
                  if Ascii.eqb c2 "!" && Ascii.eqb c3 "r" && Ascii.eqb c4 "}"
                  then
                    match args with
                    | [] =>
                        raise (IndexError "Replacement index out of range")
                    | a :: args' =>
                        let* rest := format r4 args' in
                        ret (repr a +:+ rest)
                    end
                  else
                    let* rest := format r1 args in ret (String c1 rest)
              | _ => let* rest := format r1 args in ret (String c1 rest)
              end
        | EmptyString => ret (String c1 EmptyString)
        end
      else
        let* rest := format r1 args in ret (String c1 rest)
  end.

(** [sep.join(parts)]. *)
Definition join (sep : string) (parts : list string) : string :=
  String.concat sep parts.

(** The quote [repr] puts around a text. *)
Definition quote_for (s : string) : ascii :=
  if contains quote1 s && negb (contains quote2 s) then quote2 else quote1.

(** The text between the quotes that [repr] chooses for it. *)
Definition quoted (s : string) : string :=
  String (quote_for s) (s +:+ String (quote_for s) EmptyString).

(** Every character prints as itself between the given quotes: it is
    printable and is neither that quote nor the backslash. *)
Fixpoint verbatim_in (quote : ascii) (s : string) : bool :=
  match s with
  | EmptyString => true
  | String c s' =>
      isprintable c && negb (Ascii.eqb c quote)
      && negb (Ascii.eqb c backslash) && verbatim_in quote s'
  end.

Definition verbatim (s : string) : bool := verbatim_in (quote_for s) s.

(** Reading a text back from its [repr], as the Python parser reads a string
    literal with these escapes. *)
Fixpoint digit_value (c : ascii) (digits : string) (n : N) : option N :=
  match digits with
  | EmptyString => None
  | String d digits' =>
      if Ascii.eqb c d then Some n else digit_value c digits' (N.succ n)
  end.

Definition unhex (c : ascii) : option N :=
  digit_value c "0123456789abcdef" 0%N.

Definition cons_char (c : ascii) (o : option string) : option string :=
  match o with
  | Some s => Some (String c s)
  | None => None
  end.

Fixpoint unrepr_body (quote : ascii) (s : string) : option string :=
  match s with
  | EmptyString => None
  | String c s' =>
      if Ascii.eqb c quote then
        match s' with
        | EmptyString => Some EmptyString
        | String _ _ => None
        end
      else if Ascii.eqb c backslash then
        match s' with
        | EmptyString => None
        | String e s'' =>
            if Ascii.eqb e quote || Ascii.eqb e backslash then
              cons_char e (unrepr_body quote s'')
            else if Ascii.eqb e "t" then
              cons_char (ascii_of_nat 9) (unrepr_body quote s'')
            else if Ascii.eqb e "n" then
              cons_char (ascii_of_nat 10) (unrepr_body quote s'')
            else if Ascii.eqb e "r" then
              cons_char (ascii_of_nat 13) (unrepr_body quote s'')
            else if Ascii.eqb e "x" then
              match s'' with
              | String h1 (String h2 s3) =>
                  match unhex h1, unhex h2 with
                  | Some a, Some b =>
                      cons_char (ascii_of_N (16 * a + b))
                        (unrepr_body quote s3)
                  | _, _ => None
                  end
              | _ => None
              end
            else None
        end
      else cons_char c (unrepr_body quote s')
  end.

Definition unrepr (s : string) : option string :=
  match s with
  | EmptyString => None
  | String q body =>
      if Ascii.eqb q quote1 || Ascii.eqb q quote2 then unrepr_body q body
      else None
  end.

End Py.

(** [format] over arguments of any type: each argument comes as what [str]
    and what [repr] make of it, an empty field inserts the first and a field
    with the [!r] conversion the second. *)
Module PyValues.

Record rendering : Type := { as_str : string; as_repr : string }.

(** A [str] argument. *)
Definition of_str (s : string) : rendering :=
  {| as_str := s; as_repr := Py.repr s |}.

(** An argument that prints the same way under [str] and [repr]. *)
Definition of_text (s : string) : rendering :=
  {| as_str := s; as_repr := s |}.

Fixpoint format (tpl : string) (args : list rendering) : fallible string :=
  match tpl with
  | EmptyString => ret EmptyString
  | String c1 r1 =>
      if Ascii.eqb c1 "{" then
        match r1 with
        | String c2 r2 =>
            if Ascii.eqb c2 "}" then
              match args with
              | [] => raise (IndexError "Replacement index out of range")
              | a :: args' =>
                  let* rest := format r2 args' in ret (as_str a +:+ rest)
              end
            else
              match r2 with
              | String c3 (String c4 r4) =>
                  if Ascii.eqb c2 "!" && Ascii.eqb c3 "r" && Ascii.eqb c4 "}"
                  then
                    match args with
                    | [] =>
                        raise (IndexError "Replacement index out of range")
                    | a :: args' =>
                        let* rest := format r4 args' in
                        ret (as_repr a +:+ rest)
                    end
                  else
                    let* rest := format r1 args in ret (String c1 rest)
              | _ => let* rest := format r1 args in ret (String c1 rest)
              end
        | EmptyString => ret (String c1 EmptyString)
        end
      else
        let* rest := format r1 args in ret (String c1 rest)
  end.

End PyValues.

(** ** Collaborators: job definitions, resource expressions, results *)

(** A [JobDefinition] as far as this module reads it. *)
Module JobDefinition.
Record t : Type := { id : string; category_id : string }.
End JobDefinition.

(** A [ResourceExpression] as far as this module reads it. *)
Module ResourceExpression.
Record t : Type := { text : string }.
End ResourceExpression.

(** Job definitions are shared between the session, its job states and the
    inhibitors that name them: they are held by reference into a store. *)
Definition loc : Type := positive.
Abbreviation heap := (gmap loc JobDefinition.t).

(** The values an untyped attribute of a [JobState] can hold. *)
Inductive object : Type :=
| PyNone
| JOB_VALUE
| Str (s : string)
| Int (z : Z)
| Job (l : loc).

(** [isinstance(o, JobDefinition)] *)
Definition isinstance_JobDefinition (o : object) : bool :=
  match o with Job _ => true | _ => false end.

(** Reading an attribute through a reference; a reference into the store is
    never dangling in Python, the error case only makes the function total. *)
Definition deref (h : heap) (l : loc) : fallible JobDefinition.t :=
  match h !! l with
  | Some jd => ret jd
  | None => raise (KeyError "no such object")
  end.

(** [getattr(job, name)] for a job definition. *)
Definition getattr_job (jd : JobDefinition.t) (name : string) : fallible object :=
  if String.eqb name "id" then ret (Str (JobDefinition.id jd))
  else if String.eqb name "category_id" then
    ret (Str (JobDefinition.category_id jd))
  else raise (AttributeError name).

(** [MemoryJobResult(data)]: the result object of a job, here its data. *)
Module MemoryJobResult.
Record t : Type := { data : list (string * object) }.
End MemoryJobResult.

(** Modelled from the spec: [plainbox.i18n.gettext] is not among the sources;
    message formatting for other languages is outside the specification, so a
    message is taken in the language it is written in. *)
Definition gettext (msgid : string) : string := msgid.

(** ** plainbox.impl.pod *)

Module pod.

(** Modelled from the spec: [pod.UNSET], the marker an attribute holds
    before its first assignment, is not among the sources. An attribute is
    either that marker or a value. *)
Inductive attr (A : Type) : Type :=
| UNSET
| Val (a : A).
Arguments UNSET {A}.
Arguments Val {A} a.

(** [a is UNSET] *)
Definition is_UNSET {A : Type} (a : attr A) : bool :=
  match a with
  | UNSET => true
  | Val _ => false
  end.

(** Modelled from the spec: how [pod.Field] starts an attribute that the
    caller did not pass, [pod.MANDATORY] (it must be passed), [initial] or
    [initial_fn]; not among the sources. *)
Inductive initializer (A : Type) : Type :=
| MANDATORY
| initial (a : A)
| initial_fn (f : unit -> A).
Arguments MANDATORY {A}.
Arguments initial {A} a.
Arguments initial_fn {A} f.

(** An assign filter receives the instance, the field (its name), the value
    the attribute holds and the value being assigned, and returns the value
    to store or raises. *)
Definition assign_filter (I A : Type) : Type :=
  I -> string -> attr A -> A -> fallible A.

(** Modelled from the spec: [pod.Field], a declared attribute of a class of
    instances [I], is not among the sources: its name, the instance
    attribute it reads and writes, its initializer and its filters. *)
Record Field (I A : Type) : Type := {
  name : string;
  instance_attr : I -> attr A;
  set_instance_attr : I -> A -> I;
  init : initializer A;
  assign_filter_list : list (assign_filter I A)
}.
Arguments name {I A} _.
Arguments instance_attr {I A} _ _.
Arguments set_instance_attr {I A} _ _ _.
Arguments init {I A} _.
Arguments assign_filter_list {I A} _.

(** What an assignment leaves behind: the updated instance, or the
    exception and the instance as it was. *)
Inductive assigned (I : Type) : Type :=
| Stored (i : I)
| Refused (e : exn) (i : I).
Arguments Stored {I} i.
Arguments Refused {I} e i.

Definition instance_after {I : Type} (a : assigned I) : I :=
  match a with Stored i => i | Refused _ i => i end.

Fixpoint run_filters {I A : Type} (fs : list (assign_filter I A))
    (instance : I) (field : string) (old_value : attr A) (new_value : A)
    : fallible A :=
  match fs with
  | [] => ret new_value
  | f :: fs' =>
      let* v := f instance field old_value new_value in
      run_filters fs' instance field old_value v
  end.

(** Modelled from the spec: [Field.__get__], not among the sources, reads
    the instance attribute. *)
Definition __get__ {I A : Type} (f : Field I A) (instance : I) : attr A :=
  instance_attr f instance.

(** Modelled from the spec: [Field.__set__], not among the sources, passes
    the new value through the filters, each seeing the value held so far,
    and stores what they return; when a filter raises nothing is stored. *)
Definition __set__ {I A : Type} (f : Field I A) (instance : I)
    (new_value : A) : assigned I :=
  let old_value := instance_attr f instance in
  match run_filters (assign_filter_list f) instance (name f)
          old_value new_value with
  | inl e => Refused e instance
  | inr v => Stored (set_instance_attr f instance v)
  end.

(** Modelled from the spec: [pod.read_only_assign_filter], not among the
    sources: instances are read-only after construction, so the filter lets
    the first assignment through and refuses every later one. *)
Definition read_only_assign_filter {I A : Type} (class_name : string)
    : assign_filter I A :=
  fun instance field old_value new_value =>
    match old_value with
    | UNSET => ret new_value
    | Val _ =>
        raise (AttributeError
                 (class_name +:+ "." +:+ field +:+ " is read-only"))
    end.

(** Modelled from the spec: the step of [POD.__init__], not among the
    sources, that gives one field its first value: the argument passed for
    it, or else what its initializer says. *)
Definition init_field {I A : Type} (f : Field I A) (arg : option A)
    (instance : I) : fallible I :=
  let* v :=
    match arg with
    | Some v => ret v
    | None =>
        match init f with
        | MANDATORY =>
            raise (TypeError ("mandatory argument missing: " +:+ name f))
        | initial a => ret a
        | initial_fn fn => ret (fn tt)
        end
    end in
  match __set__ f instance v with
  | Stored i => ret i
  | Refused e _ => raise e
  end.

End pod.

Import pod.

(** [o is None] *)
Definition is_None {A : Type} (o : option A) : bool :=
  match o with
  | None => true
  | Some _ => false
  end.

(** The value a module-level call evaluates to, for a call that returns. *)
Definition returned {A : Type} (m : fallible A)
    : match raises m return Type with true => unit | false => A end :=
  match m with
  | inl _ => tt
  | inr a => a
  end.

(** ** class JobReadinessInhibitor(pod.POD) *)

Module JobReadinessInhibitor.

(** The instance attributes behind the three fields. *)
Record t : Type := {
  _cause : attr Z;
  _related_job : attr (option loc);
  _related_expression : attr (option ResourceExpression.t)
}.

Definition __name__ : string := "JobReadinessInhibitor".

(** [UNDESIRED, PENDING_DEP, FAILED_DEP, PENDING_RESOURCE, FAILED_RESOURCE
    = range(5)] *)
Definition UNDESIRED : Z := 0.
Definition PENDING_DEP : Z := 1.
Definition FAILED_DEP : Z := 2.
Definition PENDING_RESOURCE : Z := 3.
Definition FAILED_RESOURCE : Z := 4.

Definition _cause_display : gmap Z string :=
  <[UNDESIRED := "UNDESIRED"]>
    (<[PENDING_DEP := "PENDING_DEP"]>
       (<[FAILED_DEP := "FAILED_DEP"]>
          (<[PENDING_RESOURCE := "PENDING_RESOURCE"]>
             (<[FAILED_RESOURCE := "FAILED_RESOURCE"]> ∅)))).

(** [d[k]] *)
Definition getitem (d : gmap Z string) (k : Z) : fallible string :=
  match d !! k with
  | Some v => ret v
  | None => raise (KeyError "cause")
  end.

(** [k in d] *)
Definition contains_key (d : gmap Z string) (k : Z) : bool :=
  match d !! k with
  | Some _ => true
  | None => false
  end.

Definition cause : Field t Z := {|
  name := "cause";
  instance_attr := _cause;
  set_instance_attr := fun i v =>
    {| _cause := Val v;
       _related_job := _related_job i;
       _related_expression := _related_expression i |};
  init := MANDATORY;
  assign_filter_list := [read_only_assign_filter __name__]
|}.

Definition related_job : Field t (option loc) := {|
  name := "related_job";
  instance_attr := _related_job;
  set_instance_attr := fun i v =>
    {| _cause := _cause i;
       _related_job := Val v;
       _related_expression := _related_expression i |};
  init := initial None;
  assign_filter_list := [read_only_assign_filter __name__]
|}.

Definition related_expression : Field t (option ResourceExpression.t) := {|
  name := "related_expression";
  instance_attr := _related_expression;
  set_instance_attr := fun i v =>
    {| _cause := _cause i;
       _related_job := _related_job i;
       _related_expression := Val v |};
  init := initial None;
  assign_filter_list := [read_only_assign_filter __name__]
|}.

(** The instance before [POD.__init__] has touched it: every attribute is
    [UNSET]. *)
Definition unset : t :=
  {| _cause := UNSET; _related_job := UNSET; _related_expression := UNSET |}.

(** Modelled from the spec: [POD.__init__], not among the sources, starts
    from an instance whose attributes are all [UNSET] and gives every field
    its first value, in the order the fields are declared; here the three
    values that [super().__init__(cause, related_job, related_expression)]
    passes. *)
Definition POD__init__ (a_cause : Z) (a_related_job : option loc)
    (a_related_expression : option ResourceExpression.t) : fallible t :=
  let* self := init_field cause (Some a_cause) unset in
  let* self := init_field related_job (Some a_related_job) self in
  init_field related_expression (Some a_related_expression) self.

(** [JobReadinessInhibitor(cause, related_job=None,
    related_expression=None)], with arguments of the types the fields
    declare: an [int], a job definition or [None], a resource expression or
    [None]. *)
Definition __init__ (a_cause : Z) (a_related_job : option loc)
    (a_related_expression : option ResourceExpression.t) : fallible t :=
  if negb (contains_key _cause_display a_cause) then
    raise (ValueError (gettext "unsupported value for cause"))
  else if negb (a_cause =? UNDESIRED)%Z && is_None a_related_job then
    let* display := getitem _cause_display a_cause in
    let* msg :=
      Py.format (gettext "related_job must not be None when cause is {}")
        [display] in
    raise (ValueError msg)
  else if ((a_cause =? PENDING_RESOURCE) || (a_cause =? FAILED_RESOURCE))%Z
          && is_None a_related_expression then
    let* display := getitem _cause_display a_cause in
    let* msg :=
      Py.format
        (gettext "related_expression must not be None when cause is {}")
        [display] in
    raise (ValueError msg)
  else POD__init__ a_cause a_related_job a_related_expression.

(** [self._cause_display[self.cause]] *)
Definition cause_name (self : t) : fallible string :=
  match __get__ cause self with
  | Val c => getitem _cause_display c
  | UNSET => raise (KeyError "UNSET")
  end.

(** [self.cause == c] *)
Definition cause_is (self : t) (c : Z) : bool :=
  match __get__ cause self with
  | Val z => (z =? c)%Z
  | UNSET => false
  end.

(** [self.related_job.id] *)
Definition related_job_id (h : heap) (self : t) : fallible string :=
  match __get__ related_job self with
  | Val (Some l) => let* jd := deref h l in ret (JobDefinition.id jd)
  | Val None => raise (AttributeError "'NoneType' object has no attribute 'id'")
  | UNSET => raise (AttributeError "id")
  end.

(** [self.related_expression.text] *)
Definition related_expression_text (self : t) : fallible string :=
  match __get__ related_expression self with
  | Val (Some e) => ret (ResourceExpression.text e)
  | Val None =>
      raise (AttributeError "'NoneType' object has no attribute 'text'")
  | UNSET => raise (AttributeError "text")
  end.

Definition __str__ (h : heap) (self : t) : fallible string :=
  if cause_is self UNDESIRED then
    ret (gettext "undesired")
  else if cause_is self PENDING_DEP then
    let* id := related_job_id h self in
    Py.format (gettext "required dependency {!r} did not run yet") [id]
  else if cause_is self FAILED_DEP then
    let* id := related_job_id h self in
    Py.format (gettext "required dependency {!r} has failed") [id]
  else if cause_is self PENDING_RESOURCE then
    let* text := related_expression_text self in
    Py.format
      (gettext ("resource expression {!r} could not be evaluated because"
                +:+ " the resource it depends on did not run yet"))
      [text]
  else if cause_is self FAILED_RESOURCE then
    let* text := related_expression_text self in
    Py.format (gettext "resource expression {!r} evaluates to false") [text]
  else raise AssertionError.

(** [repr(self.related_job)]: [None] prints as its name, a job definition as
    its class prints it. How [JobDefinition] and [ResourceExpression] print
    themselves is theirs to say and is taken as given. Modelled from the
    spec: the marker [UNSET] of [plainbox.impl.pod], not among the sources
    and never held by a constructed instance, prints as its name. *)
Definition related_job_repr (repr_job : JobDefinition.t -> string)
    (h : heap) (self : t) : fallible PyValues.rendering :=
  match __get__ related_job self with
  | Val (Some l) =>
      let* jd := deref h l in ret (PyValues.of_text (repr_job jd))
  | Val None => ret (PyValues.of_text "None")
  | UNSET => ret (PyValues.of_text "UNSET")
  end.

(** [repr(self.related_expression)] *)
Definition related_expression_repr
    (repr_expression : ResourceExpression.t -> string) (self : t)
    : PyValues.rendering :=
  match __get__ related_expression self with
  | Val (Some e) => PyValues.of_text (repr_expression e)
  | Val None => PyValues.of_text "None"
  | UNSET => PyValues.of_text "UNSET"
  end.

Definition __repr__ (repr_job : JobDefinition.t -> string)
    (repr_expression : ResourceExpression.t -> string)
    (h : heap) (self : t) : fallible string :=
  let* display := cause_name self in
  let* job := related_job_repr repr_job h self in
  PyValues.format "<{} cause:{} related_job:{!r} related_expression:{!r}>"
    [PyValues.of_str __name__; PyValues.of_str display; job;
     related_expression_repr repr_expression self].

(** The instance whose three attributes hold the given values. *)
Definition built (c : Z) (rj : option loc) (re : option ResourceExpression.t)
    : t :=
  {| _cause := Val c; _related_job := Val rj; _related_expression := Val re |}.

End JobReadinessInhibitor.

(** A global instance of [JobReadinessInhibitor] with the [UNDESIRED] cause,
    built once when the module is loaded. *)
Definition UndesiredJobReadinessInhibitor : JobReadinessInhibitor.t :=
  returned (JobReadinessInhibitor.__init__ JobReadinessInhibitor.UNDESIRED
              None None).

(** ** class OverridableJobField(pod.Field)

    A readable-writable field whose initial value [JOB_VALUE] reads as "load
    this value from the corresponding job definition". *)

Module OverridableJobField.

Record t (I : Type) : Type := {
  field : Field I object;
  job_field : string;
  (** [instance.job], which the descriptor reads off its instance *)
  instance_job : I -> attr loc
}.
Arguments field {I} _.
Arguments job_field {I} _.
Arguments instance_job {I} _ _.

(** [super().__init__(doc, type, JOB_VALUE, None, notify,
    assign_filter_list); self.job_field = job_field] *)
Definition __init__ {I : Type} (a_job_field : string) (a_name : string)
    (get : I -> attr object) (set : I -> object -> I)
    (job : I -> attr loc)
    (a_assign_filter_list : list (assign_filter I object)) : t I :=
  {| field := {| name := a_name;
                 instance_attr := get;
                 set_instance_attr := set;
                 init := initial JOB_VALUE;
                 assign_filter_list := a_assign_filter_list |};
     job_field := a_job_field;
     instance_job := job |}.

Definition __get__ {I : Type} (self : t I) (h : heap) (instance : I)
    : fallible (attr object) :=
  let value := pod.__get__ (field self) instance in
  match value with
  | Val JOB_VALUE =>
      match instance_job self instance with
      | Val l =>
          let* jd := deref h l in
          let* v := getattr_job jd (job_field self) in
          ret (Val v)
      | UNSET => raise (AttributeError (job_field self))
      end
  | _ => ret value
  end.

End OverridableJobField.

(** The setter of [JobState.job] that lets session restoring reattach a
    state to a job definition: every value is let through. *)
Definition job_assign_filter {I : Type} : assign_filter I loc :=
  fun instance field old_value new_value => ret new_value.

Definition job_via_assign_filter {I : Type} : assign_filter I object :=
  fun instance field old_value new_value =>
    if negb (is_UNSET old_value) && negb (isinstance_JobDefinition new_value)
    then raise (TypeError "via_job must be the actual job, not the checksum")
    else ret new_value.

(** ** class JobState(pod.POD) *)

Module JobState.

(** The instance attributes behind the five fields. *)
Record t : Type := {
  _job : attr loc;
  _readiness_inhibitor_list : attr (list JobReadinessInhibitor.t);
  _result : attr MemoryJobResult.t;
  _via_job : attr object;
  _effective_category_id : attr object
}.

Definition job : Field t loc := {|
  name := "job";
  instance_attr := _job;
  set_instance_attr := fun i v =>
    {| _job := Val v;
       _readiness_inhibitor_list := _readiness_inhibitor_list i;
       _result := _result i;
       _via_job := _via_job i;
       _effective_category_id := _effective_category_id i |};
  init := MANDATORY;
  assign_filter_list := [job_assign_filter]
|}.

Definition readiness_inhibitor_list
    : Field t (list JobReadinessInhibitor.t) := {|
  name := "readiness_inhibitor_list";
  instance_attr := _readiness_inhibitor_list;
  set_instance_attr := fun i v =>
    {| _job := _job i;
       _readiness_inhibitor_list := Val v;
       _result := _result i;
       _via_job := _via_job i;
       _effective_category_id := _effective_category_id i |};
  init := initial_fn (fun _ => [UndesiredJobReadinessInhibitor]);
  assign_filter_list := []
|}.

(** The [notify=True] of this field announces a change to observers after
    the value is stored; it does not touch the state and is left out. *)
Definition result : Field t MemoryJobResult.t := {|
  name := "result";
  instance_attr := _result;
  set_instance_attr := fun i v =>
    {| _job := _job i;
       _readiness_inhibitor_list := _readiness_inhibitor_list i;
       _result := Val v;
       _via_job := _via_job i;
       _effective_category_id := _effective_category_id i |};
  init := initial_fn (fun _ => {| MemoryJobResult.data := [] |});
  assign_filter_list := []
|}.

Definition via_job : Field t object := {|
  name := "via_job";
  instance_attr := _via_job;
  set_instance_attr := fun i v =>
    {| _job := _job i;
       _readiness_inhibitor_list := _readiness_inhibitor_list i;
       _result := _result i;
       _via_job := Val v;
       _effective_category_id := _effective_category_id i |};
  init := initial PyNone;
  assign_filter_list := [job_via_assign_filter]
|}.

Definition effective_category_id : OverridableJobField.t t :=
  OverridableJobField.__init__ "category_id" "effective_category_id"
    _effective_category_id
    (fun i v =>
       {| _job := _job i;
          _readiness_inhibitor_list := _readiness_inhibitor_list i;
          _result := _result i;
          _via_job := _via_job i;
          _effective_category_id := Val v |})
    _job [].

(** The instance before [POD.__init__] has touched it: every attribute is
    [UNSET]. *)
Definition unset : t :=
  {| _job := UNSET; _readiness_inhibitor_list := UNSET; _result := UNSET;
     _via_job := UNSET; _effective_category_id := UNSET |}.

(** Modelled from the spec: [POD.__init__], not among the sources, starts
    from an instance whose attributes are all [UNSET] and gives every field
    its first value, in the order the fields are declared: the argument
    passed for the field, or else its initializer. *)
Definition __init__ (a_job : option loc)
    (a_readiness_inhibitor_list : option (list JobReadinessInhibitor.t))
    (a_result : option MemoryJobResult.t)
    (a_via_job : option object)
    (a_effective_category_id : option object) : fallible t :=
  let* self := init_field job a_job unset in
  let* self :=
    init_field readiness_inhibitor_list a_readiness_inhibitor_list self in
  let* self := init_field result a_result self in
  let* self := init_field via_job a_via_job self in
  init_field (OverridableJobField.field effective_category_id)
    a_effective_category_id self.

(** [JobState(job)] *)
Definition new (a_job : loc) : fallible t :=
  __init__ (Some a_job) None None None None.

(** [len(self.readiness_inhibitor_list) == 0] *)
Definition can_start (self : t) : fallible bool :=
  match __get__ readiness_inhibitor_list self with
  | Val l => ret (length l =? 0)%nat
  | UNSET => raise (TypeError "object of type 'UNSET' has no len()")
  end.

(** [(str(inhibitor) for inhibitor in l)] *)
Fixpoint strs (h : heap) (l : list JobReadinessInhibitor.t)
    : fallible (list string) :=
  match l with
  | [] => ret []
  | inhibitor :: l' =>
      let* s := JobReadinessInhibitor.__str__ h inhibitor in
      let* ss := strs h l' in
      ret (s :: ss)
  end.

(** The truth value of a list: it is not empty. *)
Definition truth (l : list JobReadinessInhibitor.t) : bool :=
  match l with
  | [] => false
  | _ :: _ => true
  end.

Definition get_readiness_description (h : heap) (self : t)
    : fallible string :=
  match __get__ readiness_inhibitor_list self with
  | Val l =>
      if truth l then
        let* parts := strs h l in
        Py.format (gettext "job cannot be started: {}")
          [Py.join ", " parts]
      else ret (gettext "job can be started")
  | UNSET => raise (TypeError "'UNSET' object is not iterable")
  end.

(** Every attribute has received its first value: what [POD.__init__]
    leaves behind when it returns. *)
Definition initialised (self : t) : bool :=
  negb (is_UNSET (_job self))
  && negb (is_UNSET (_readiness_inhibitor_list self))
  && negb (is_UNSET (_result self))
  && negb (is_UNSET (_via_job self))
  && negb (is_UNSET (_effective_category_id self)).

End JobState.

(** ** Telling explanations apart

    Three characters of a text, the first, the third and the last, are enough
    to tell the five explanations from one another. *)

Fixpoint last_char (s : string) : option ascii :=
  match s with
  | EmptyString => None
  | String a s' =>
      match s' with
      | EmptyString => Some a
      | String _ _ => last_char s'
      end
  end.

Definition shape (s : string) : option ascii * option ascii * option ascii :=
  (String.get 0 s, String.get 2 s, last_char s).

Definition shape_of_cause (c : Z) : option ascii * option ascii * option ascii :=
  if (c =? JobReadinessInhibitor.UNDESIRED)%Z then
    (Some "u", Some "d", Some "d")%char
  else if (c =? JobReadinessInhibitor.PENDING_DEP)%Z then
    (Some "r", Some "q", Some "t")%char
  else if (c =? JobReadinessInhibitor.FAILED_DEP)%Z then
    (Some "r", Some "q", Some "d")%char
  else if (c =? JobReadinessInhibitor.PENDING_RESOURCE)%Z then
    (Some "r", Some "s", Some "t")%char
  else (Some "r", Some "s", Some "e")%char.

(** A constructed inhibitor whose related job is in the store. *)
Definition explains (h : heap) (i : JobReadinessInhibitor.t) : Prop :=
  exists c rj re,
    JobReadinessInhibitor.__init__ c rj re = ret i
    /\ forall l : loc, rj = Some l -> is_Some (h !! l).

(** ** Runs of assignments *)

(** [state.via_job = v] for each [v] of a list in turn, an attempt that
    raises leaving the state as it was. *)
Definition assign_via_job_all (s : JobState.t) (vs : list object)
    : JobState.t :=
  fold_left (fun s v => instance_after (__set__ JobState.via_job s v)) vs s.

(** The last job definition among the values, or else the one held. *)
Definition last_job (held : object) (vs : list object) : object :=
  fold_left (fun held v => if isinstance_JobDefinition v then v else held)
    vs held.

(** ** What a representation shows *)

(** How the related job of an inhibitor prints, when it is in the store. *)
Definition job_text (repr_job : JobDefinition.t -> string) (h : heap)
    (rj : option loc) : string :=
  match rj with
  | Some l =>
      match h !! l with
      | Some jd => repr_job jd
      | None => EmptyString
      end
  | None => "None"
  end.

(** How the related expression of an inhibitor prints. *)
Definition expression_text
    (repr_expression : ResourceExpression.t -> string)
    (re : option ResourceExpression.t) : string :=
  match re with
  | Some e => repr_expression e
  | None => "None"
  end.

(** * Properties *)

Import JobReadinessInhibitor.

(** ** Construction of an inhibitor *)

Lemma cause_display_lookup (c : Z) :
  contains_key _cause_display c = (0 <=? c)%Z && (c <=? 4)%Z.
Proof.
  unfold contains_key, _cause_display,
    UNDESIRED, PENDING_DEP, FAILED_DEP, PENDING_RESOURCE, FAILED_RESOURCE.
  rewrite !lookup_insert, lookup_empty.
  repeat case_decide; subst; try reflexivity.
  symmetry. apply andb_false_iff. rewrite Z.leb_gt, Z.leb_gt. lia.
Qed.

Lemma cause_in_range (c : Z) :
  contains_key _cause_display c = true ->
  c = UNDESIRED \/ c = PENDING_DEP \/ c = FAILED_DEP
  \/ c = PENDING_RESOURCE \/ c = FAILED_RESOURCE.
Proof.
  rewrite cause_display_lookup, andb_true_iff, !Z.leb_le.
  unfold UNDESIRED, PENDING_DEP, FAILED_DEP, PENDING_RESOURCE,
    FAILED_RESOURCE. lia.
Qed.

(** Two cause constants that differ. *)
Ltac causes_differ :=
  let H := fresh in
  intros H; repeat (destruct H as [H | H]); vm_compute in H; discriminate H.

(** Case analysis on a cause the constructor knows. *)
Ltac known_cause H :=
  apply cause_in_range in H;
  destruct H as [-> | [-> | [-> | [-> | ->]]]].

Lemma init_unsupported (c : Z) (rj : option loc)
    (re : option ResourceExpression.t) :
  contains_key _cause_display c = false ->
  __init__ c rj re = raise (ValueError "unsupported value for cause").
Proof. intros H. unfold __init__. rewrite H. reflexivity. Qed.

Lemma init_returns (c : Z) (rj : option loc)
    (re : option ResourceExpression.t) (i : JobReadinessInhibitor.t) :
  __init__ c rj re = inr i ->
  i = built c rj re
  /\ contains_key _cause_display c = true
  /\ (c <> UNDESIRED -> is_None rj = false)
  /\ (c = PENDING_RESOURCE \/ c = FAILED_RESOURCE -> is_None re = false).
Proof.
  intros H.
  destruct (contains_key _cause_display c) eqn:Hc.
  - pose proof Hc as Hk. known_cause Hk;
      destruct rj, re; vm_compute in H; try discriminate;
      injection H as <-; vm_compute; repeat split; intros; try reflexivity;
      try congruence; try lia; intuition discriminate.
  - rewrite (init_unsupported _ _ _ Hc) in H. discriminate.
Qed.

Lemma init_accepts (c : Z) (rj : option loc)
    (re : option ResourceExpression.t) :
  contains_key _cause_display c = true ->
  (c <> UNDESIRED -> is_None rj = false) ->
  (c = PENDING_RESOURCE \/ c = FAILED_RESOURCE -> is_None re = false) ->
  __init__ c rj re = inr (built c rj re).
Proof.
  intros Hc Hj He. known_cause Hc; destruct rj, re; try reflexivity;
    try (exfalso; (discriminate Hj || discriminate He); (discriminate || auto)).
Qed.

(** C1: the constructor raises, before any instance exists, whenever the
    cause is not UNDESIRED and no related_job is given, and whenever the cause
    is PENDING_RESOURCE or FAILED_RESOURCE and no related_expression is given;
    for one of the five causes with the fields it requires, the constructor
    returns the instance holding the three values. *)
Theorem init_checks_required_fields (c : Z) (rj : option loc)
    (re : option ResourceExpression.t) :
  (c <> UNDESIRED -> rj = None -> is_ValueError (__init__ c rj re) = true)
  /\ (c = PENDING_RESOURCE \/ c = FAILED_RESOURCE -> re = None ->
      is_ValueError (__init__ c rj re) = true)
  /\ (contains_key _cause_display c = true ->
      (c <> UNDESIRED -> rj <> None) ->
      (c = PENDING_RESOURCE \/ c = FAILED_RESOURCE -> re <> None) ->
      __init__ c rj re = ret (built c rj re)).
Proof.
  split; [| split].
  - intros Hc ->.
    destruct (contains_key _cause_display c) eqn:Hk.
    + known_cause Hk; try (exfalso; apply Hc; reflexivity);
        destruct re; reflexivity.
    + rewrite (init_unsupported _ _ _ Hk). reflexivity.
  - intros [-> | ->] ->; destruct rj; reflexivity.
  - intros Hk Hj He. apply init_accepts; [assumption | |].
    + intros Hc. destruct rj; [reflexivity | exfalso; exact (Hj Hc eq_refl)].
    + intros Hc. destruct re; [reflexivity | exfalso; exact (He Hc eq_refl)].
Qed.

Lemma init_checks_required_fields_witness :
  is_ValueError (__init__ PENDING_DEP None None) = true
  /\ is_ValueError (__init__ FAILED_RESOURCE (Some 7%positive) None) = true
  /\ __init__ FAILED_DEP (Some 7%positive) None
     = ret (built FAILED_DEP (Some 7%positive) None).
Proof.
  split; [| split].
  - apply (proj1 (init_checks_required_fields PENDING_DEP None None));
      [causes_differ | reflexivity].
  - apply (proj1 (proj2 (init_checks_required_fields FAILED_RESOURCE
                           (Some 7%positive) None)));
      [right; reflexivity | reflexivity].
  - apply (proj2 (proj2 (init_checks_required_fields FAILED_DEP
                           (Some 7%positive) None)));
      [reflexivity | discriminate | causes_differ].
Defined.

(** C2, as stated, fails: the constructor accepts a related_job next to
    UNDESIRED and a related_expression next to a cause that is not about a
    resource, and stores both. *)
Lemma init_accepts_unrequired_fields :
  __init__ UNDESIRED (Some 7%positive)
    (Some {| ResourceExpression.text := "cpu.cores > 2" |})
  = ret (built UNDESIRED (Some 7%positive)
           (Some {| ResourceExpression.text := "cpu.cores > 2" |}))
  /\ raises (__init__ UNDESIRED (Some 7%positive) None) = false
  /\ raises (__init__ PENDING_DEP (Some 7%positive)
               (Some {| ResourceExpression.text := "cpu.cores > 2" |}))
     = false.
Proof. repeat split. Qed.

(** C2, amended: every inhibitor the constructor returns has one of the five
    causes and holds the three values it was given; a cause other than
    UNDESIRED implies a related_job, and PENDING_RESOURCE or FAILED_RESOURCE
    implies a related_expression. The converse directions are not checked:
    for each of the five causes, a call that supplies both a related_job and a
    related_expression returns. *)
Theorem init_invariant (c : Z) (rj : option loc)
    (re : option ResourceExpression.t) :
  (forall i : JobReadinessInhibitor.t,
      __init__ c rj re = ret i ->
      i = built c rj re
      /\ contains_key _cause_display c = true
      /\ (c <> UNDESIRED -> is_Some rj)
      /\ (c = PENDING_RESOURCE \/ c = FAILED_RESOURCE -> is_Some re))
  /\ (contains_key _cause_display c = true ->
      forall (l : loc) (e : ResourceExpression.t),
        __init__ c (Some l) (Some e) = ret (built c (Some l) (Some e))).
Proof.
  split.
  - intros i H. apply init_returns in H as (-> & Hk & Hj & He).
    repeat split; [assumption | |].
    + intros Hc. specialize (Hj Hc). destruct rj; [eauto | discriminate].
    + intros Hc. specialize (He Hc). destruct re; [eauto | discriminate].
  - intros Hk l e. apply init_accepts; [assumption | reflexivity..].
Qed.

Lemma init_invariant_witness :
  (built PENDING_RESOURCE (Some 7%positive)
     (Some {| ResourceExpression.text := "cpu.cores > 2" |})
   = built PENDING_RESOURCE (Some 7%positive)
       (Some {| ResourceExpression.text := "cpu.cores > 2" |})
   /\ contains_key _cause_display PENDING_RESOURCE = true
   /\ (PENDING_RESOURCE <> UNDESIRED -> is_Some (Some 7%positive))
   /\ (PENDING_RESOURCE = PENDING_RESOURCE \/ PENDING_RESOURCE = FAILED_RESOURCE
       -> is_Some (Some {| ResourceExpression.text := "cpu.cores > 2" |})))
  /\ __init__ UNDESIRED (Some 7%positive)
       (Some {| ResourceExpression.text := "x" |})
     = ret (built UNDESIRED (Some 7%positive)
              (Some {| ResourceExpression.text := "x" |})).
Proof.
  split.
  - apply (proj1 (init_invariant PENDING_RESOURCE (Some 7%positive)
                    (Some {| ResourceExpression.text := "cpu.cores > 2" |}))).
    reflexivity.
  - apply (proj2 (init_invariant UNDESIRED None None)). reflexivity.
Defined.

(** C10: a cause outside the five constants, the integers 0 to 4, makes the
    constructor raise ValueError whatever related_job and related_expression
    are. *)
Theorem init_rejects_unknown_cause (c : Z) (rj : option loc)
    (re : option ResourceExpression.t) :
  c < 0 \/ 4 < c ->
  __init__ c rj re = raise (ValueError "unsupported value for cause").
Proof.
  intros H. apply init_unsupported. rewrite cause_display_lookup.
  apply andb_false_iff. rewrite !Z.leb_gt. lia.
Qed.

Lemma init_rejects_unknown_cause_witness :
  __init__ 5 (Some 7%positive) (Some {| ResourceExpression.text := "x" |})
  = raise (ValueError "unsupported value for cause").
Proof. apply init_rejects_unknown_cause. right. lia. Defined.

(** ** Inhibitors are read-only *)

Lemma built_is_read_only (c : Z) (rj : option loc)
    (re : option ResourceExpression.t) :
  let i := built c rj re in
  (forall c', __set__ cause i c'
     = Refused (AttributeError "JobReadinessInhibitor.cause is read-only") i)
  /\ (forall rj', __set__ related_job i rj'
       = Refused
           (AttributeError "JobReadinessInhibitor.related_job is read-only") i)
  /\ (forall re', __set__ related_expression i re'
       = Refused
           (AttributeError
              "JobReadinessInhibitor.related_expression is read-only") i).
Proof. repeat split. Qed.

(** C9: on an inhibitor the constructor returned, assigning cause,
    related_job or related_expression raises AttributeError and stores
    nothing: the instance after the attempt is the instance before it, and
    its three fields read as the values given to the constructor. *)
Theorem inhibitor_is_read_only (c : Z) (rj : option loc)
    (re : option ResourceExpression.t) (i : JobReadinessInhibitor.t) :
  __init__ c rj re = ret i ->
  (forall c', exists msg,
      __set__ cause i c' = Refused (AttributeError msg) i)
  /\ (forall rj', exists msg,
        __set__ related_job i rj' = Refused (AttributeError msg) i)
  /\ (forall re', exists msg,
        __set__ related_expression i re' = Refused (AttributeError msg) i)
  /\ __get__ cause i = Val c
  /\ __get__ related_job i = Val rj
  /\ __get__ related_expression i = Val re.
Proof.
  intros H. apply init_returns in H as (-> & _).
  destruct (built_is_read_only c rj re) as (Hc & Hj & He).
  repeat split; intros; eexists; eauto.
Qed.

Lemma inhibitor_is_read_only_witness :
  let i := built FAILED_DEP (Some 7%positive) None in
  (forall c', exists msg,
      __set__ cause i c' = Refused (AttributeError msg) i)
  /\ (forall rj', exists msg,
        __set__ related_job i rj' = Refused (AttributeError msg) i)
  /\ (forall re', exists msg,
        __set__ related_expression i re' = Refused (AttributeError msg) i)
  /\ __get__ cause i = Val FAILED_DEP
  /\ __get__ related_job i = Val (Some 7%positive)
  /\ __get__ related_expression i = Val None.
Proof.
  apply (inhibitor_is_read_only FAILED_DEP (Some 7%positive) None).
  reflexivity.
Defined.

(** ** Job states *)

Import JobState.

Lemma state_init_returns (j : loc)
    (l : option (list JobReadinessInhibitor.t))
    (r : option MemoryJobResult.t) (v c : option object) :
  JobState.__init__ (Some j) l r v c
  = ret {| _job := Val j;
           _readiness_inhibitor_list :=
             Val (default [UndesiredJobReadinessInhibitor] l);
           _result := Val (default {| MemoryJobResult.data := [] |} r);
           _via_job := Val (default PyNone v);
           _effective_category_id := Val (default JOB_VALUE c) |}.
Proof. destruct l, r, v, c; reflexivity. Qed.

Lemma state_init_initialised (j : option loc)
    (l : option (list JobReadinessInhibitor.t))
    (r : option MemoryJobResult.t) (v c : option object) (s : JobState.t) :
  JobState.__init__ j l r v c = ret s -> initialised s = true.
Proof.
  destruct j as [j |]; [| discriminate].
  rewrite state_init_returns. intros [= <-]. reflexivity.
Qed.

(** An assignment, accepted or refused, leaves every attribute set. *)
Lemma set_keeps_initialised {A : Type} (f : Field JobState.t A)
    (s : JobState.t) (a : A) :
  (forall s' a', initialised s' = true ->
                 initialised (set_instance_attr f s' a') = true) ->
  initialised s = true ->
  initialised (instance_after (__set__ f s a)) = true.
Proof.
  intros Hf Hs. unfold __set__.
  destruct (run_filters _ _ _ _ _); simpl; auto.
Qed.

Lemma initialised_attrs (s : JobState.t) :
  initialised s = true ->
  exists j l r v c,
    s = {| _job := Val j; _readiness_inhibitor_list := Val l;
           _result := Val r; _via_job := Val v;
           _effective_category_id := Val c |}.
Proof.
  destruct s as [[|j] [|l] [|r] [|v] [|c]]; try discriminate.
  intros _. by exists j, l, r, v, c.
Qed.

Lemma assignments_keep_initialised (s : JobState.t) :
  initialised s = true ->
  (forall j, initialised (instance_after (__set__ job s j)) = true)
  /\ (forall l, initialised
                  (instance_after (__set__ readiness_inhibitor_list s l))
                = true)
  /\ (forall r, initialised (instance_after (__set__ result s r)) = true)
  /\ (forall v, initialised (instance_after (__set__ via_job s v)) = true)
  /\ (forall c, initialised
                  (instance_after
                     (__set__ (OverridableJobField.field effective_category_id)
                        s c)) = true).
Proof.
  intros Hs. repeat split; intros; apply set_keeps_initialised; try assumption;
    clear; intros s' a' Hs';
    apply initialised_attrs in Hs' as (j & l & r & v & c & ->); reflexivity.
Qed.

(** C3: on a job state, at construction and after any assignment, can_start
    returns, and returns true exactly when readiness_inhibitor_list is
    empty. *)
Theorem can_start_iff_no_inhibitor (s : JobState.t) :
  initialised s = true ->
  exists l : list JobReadinessInhibitor.t,
    __get__ readiness_inhibitor_list s = Val l
    /\ (can_start s = ret true <-> l = [])
    /\ (can_start s = ret false <-> l <> []).
Proof.
  intros Hs. apply initialised_attrs in Hs as (j & l & r & v & c & ->).
  exists l. split; [reflexivity |].
  unfold can_start; simpl. destruct l; simpl; split; split;
    intros H; try reflexivity; try discriminate; congruence.
Qed.

Lemma can_start_iff_no_inhibitor_witness :
  exists l : list JobReadinessInhibitor.t,
    __get__ readiness_inhibitor_list
      (returned (JobState.new 7%positive)) = Val l
    /\ (can_start (returned (JobState.new 7%positive)) = ret true <-> l = [])
    /\ (can_start (returned (JobState.new 7%positive)) = ret false
        <-> l <> []).
Proof.
  apply (can_start_iff_no_inhibitor (returned (JobState.new 7%positive))).
  reflexivity.
Defined.

(** C4: a job state created without an inhibitor list holds the one-element
    list made of UndesiredJobReadinessInhibitor, the inhibitor built once with
    cause UNDESIRED and neither related job nor related expression, which no
    assignment can change; such a state cannot start. *)
Theorem fresh_state_is_undesired :
  JobReadinessInhibitor.__init__ UNDESIRED None None
  = ret UndesiredJobReadinessInhibitor
  /\ UndesiredJobReadinessInhibitor = built UNDESIRED None None
  /\ (forall c rj re,
         instance_after (__set__ cause UndesiredJobReadinessInhibitor c)
         = UndesiredJobReadinessInhibitor
         /\ instance_after
              (__set__ related_job UndesiredJobReadinessInhibitor rj)
            = UndesiredJobReadinessInhibitor
         /\ instance_after
              (__set__ related_expression UndesiredJobReadinessInhibitor re)
            = UndesiredJobReadinessInhibitor)
  /\ (forall (j : loc) (r : option MemoryJobResult.t) (v c : option object),
         exists s : JobState.t,
           JobState.__init__ (Some j) None r v c = ret s
           /\ __get__ readiness_inhibitor_list s
              = Val [UndesiredJobReadinessInhibitor]
           /\ can_start s = ret false).
Proof.
  split; [reflexivity |]. split; [reflexivity |]. split.
  - intros c rj re. repeat split.
  - intros j r v c. eexists. split; [apply state_init_returns |].
    split; reflexivity.
Qed.

(** ** The overridable category *)

Lemma sentinel_reads_job (h : heap) (s : JobState.t) (l : loc)
    (jd : JobDefinition.t) :
  _job s = Val l ->
  _effective_category_id s = Val JOB_VALUE ->
  h !! l = Some jd ->
  OverridableJobField.__get__ effective_category_id h s
  = ret (Val (Str (JobDefinition.category_id jd))).
Proof.
  intros Hj Hc Hl. unfold OverridableJobField.__get__, __get__. simpl.
  rewrite Hc, Hj. unfold deref. rewrite Hl. reflexivity.
Qed.

Lemma override_reads_stored (h : heap) (s : JobState.t) (v : object) :
  v <> JOB_VALUE ->
  _effective_category_id s = Val v ->
  OverridableJobField.__get__ effective_category_id h s = ret (Val v).
Proof.
  intros Hv Hc. unfold OverridableJobField.__get__, __get__. simpl.
  rewrite Hc. destruct v; congruence.
Qed.

(** C5: a freshly created job state stores the sentinel; while the sentinel
    is stored, reading effective_category_id returns the category_id that the
    job definition of the state has in the store at the time of the read, so
    a change of the definition shows in the next read; once a value other
    than the sentinel is written, a read returns that value whatever the
    store holds. *)
Theorem effective_category_id_reads :
  (forall j : loc,
      exists s : JobState.t,
        JobState.new j = ret s
        /\ _job s = Val j /\ _effective_category_id s = Val JOB_VALUE)
  /\ (forall (h : heap) (s : JobState.t) (l : loc) (jd : JobDefinition.t),
         _job s = Val l ->
         _effective_category_id s = Val JOB_VALUE ->
         h !! l = Some jd ->
         OverridableJobField.__get__ effective_category_id h s
         = ret (Val (Str (JobDefinition.category_id jd)))
         /\ forall jd' : JobDefinition.t,
             OverridableJobField.__get__ effective_category_id
               (<[l := jd']> h) s
             = ret (Val (Str (JobDefinition.category_id jd'))))
  /\ (forall (s : JobState.t) (v : object),
         v <> JOB_VALUE ->
         exists s' : JobState.t,
           __set__ (OverridableJobField.field effective_category_id) s v
           = Stored s'
           /\ forall h' : heap,
               OverridableJobField.__get__ effective_category_id h' s'
               = ret (Val v)).
Proof.
  split; [| split].
  - intros j. eexists. split; [apply state_init_returns |].
    split; reflexivity.
  - intros h s l jd Hj Hc Hl. split.
    + by apply (sentinel_reads_job h s l jd).
    + intros jd'. apply (sentinel_reads_job _ s l jd'); [assumption.. |].
      apply lookup_insert_eq.
  - intros s v Hv. eexists. split; [reflexivity |].
    intros h'. by apply override_reads_stored.
Qed.

Lemma effective_category_id_reads_witness :
  let s := returned (JobState.new 7%positive) in
  let generic := {| JobDefinition.id := "cpu";
                    JobDefinition.category_id := "generic" |} in
  let audio := {| JobDefinition.id := "cpu";
                  JobDefinition.category_id := "audio" |} in
  OverridableJobField.__get__ effective_category_id {[7%positive := generic]} s
  = ret (Val (Str "generic"))
  /\ OverridableJobField.__get__ effective_category_id
       (<[7%positive := audio]> {[7%positive := generic]}) s
     = ret (Val (Str "audio"))
  /\ exists s' : JobState.t,
      __set__ (OverridableJobField.field effective_category_id) s (Str "disk")
      = Stored s'
      /\ forall h' : heap,
          OverridableJobField.__get__ effective_category_id h' s'
          = ret (Val (Str "disk")).
Proof.
  intros s generic audio.
  destruct effective_category_id_reads as (_ & Hread & Hwrite).
  destruct (Hread {[7%positive := generic]} s 7%positive generic)
    as [H1 H2]; [reflexivity | reflexivity | apply lookup_singleton_eq |].
  split; [exact H1 |]. split; [exact (H2 audio) |].
  apply Hwrite. discriminate.
Defined.

(** ** The parent job *)

Lemma via_filter_first (I : Type) (instance : I) (field : string)
    (new_value : object) :
  job_via_assign_filter instance field UNSET new_value = ret new_value.
Proof. reflexivity. Qed.

Lemma via_filter_later (I : Type) (instance : I) (field : string)
    (old new_value : object) :
  job_via_assign_filter instance field (Val old) new_value
  = if isinstance_JobDefinition new_value then ret new_value
    else raise (TypeError "via_job must be the actual job, not the checksum").
Proof. unfold job_via_assign_filter. by destruct new_value. Qed.

(** C8, as stated, fails: the assignment that gives via_job its first value
    is not checked. The filter lets a checksum string through while the
    attribute is UNSET, the constructor stores one passed to it, and the
    constructor itself assigns None, which is no job definition either. *)
Lemma via_job_first_assignment_unchecked :
  job_via_assign_filter JobState.unset "via_job" UNSET (Str "0f3a")
  = ret (Str "0f3a")
  /\ (exists s : JobState.t,
         JobState.__init__ (Some 7%positive) None None (Some (Str "0f3a")) None
         = ret s
         /\ __get__ via_job s = Val (Str "0f3a"))
  /\ __set__ via_job JobState.unset PyNone
     = Stored (set_instance_attr via_job JobState.unset PyNone).
Proof.
  split; [reflexivity |]. split; [| reflexivity].
  eexists. split; reflexivity.
Qed.

(** C8, amended: assigning a concrete job definition to via_job is always
    accepted; assigning anything else raises TypeError and stores nothing
    whenever the attribute already holds a value, which is the case on every
    job state once its constructor has returned (it then holds None or what
    the constructor was given) and in particular once it holds a job
    definition; only the assignment made while the attribute is still UNSET,
    the one inside the constructor, is accepted whatever the value. *)
Theorem via_job_assignment (s : JobState.t) (v : object) :
  (isinstance_JobDefinition v = true ->
   __set__ via_job s v = Stored (set_instance_attr via_job s v))
  /\ (isinstance_JobDefinition v = false ->
      (initialised s = true \/ exists old, __get__ via_job s = Val old) ->
      __set__ via_job s v
      = Refused (TypeError "via_job must be the actual job, not the checksum")
          s)
  /\ (__get__ via_job s = UNSET ->
      __set__ via_job s v = Stored (set_instance_attr via_job s v)).
Proof.
  split; [| split].
  - intros Hv. unfold __set__. simpl.
    destruct (_via_job s); [reflexivity |].
    rewrite via_filter_later, Hv. reflexivity.
  - intros Hv Hs.
    assert (exists old, _via_job s = Val old) as [old Hold].
    { destruct Hs as [Hs | Hs]; [| exact Hs].
      apply initialised_attrs in Hs as (j & l & r & w & c & ->). by exists w. }
    unfold __set__. simpl. rewrite Hold, via_filter_later, Hv. reflexivity.
  - unfold __get__, __set__. simpl. intros ->. reflexivity.
Qed.

Lemma via_job_assignment_witness :
  let s := returned (JobState.new 7%positive) in
  let s' := set_instance_attr via_job s (Job 3%positive) in
  __set__ via_job s (Job 3%positive) = Stored s'
  /\ __set__ via_job s' (Str "0f3a")
     = Refused (TypeError "via_job must be the actual job, not the checksum")
         s'
  /\ __set__ via_job s PyNone
     = Refused (TypeError "via_job must be the actual job, not the checksum")
         s
  /\ __set__ via_job JobState.unset (Str "0f3a")
     = Stored (set_instance_attr via_job JobState.unset (Str "0f3a")).
Proof.
  intros s s'. split; [| split; [| split]].
  - apply (proj1 (via_job_assignment s (Job 3%positive))). reflexivity.
  - apply (proj1 (proj2 (via_job_assignment s' (Str "0f3a"))));
      [reflexivity | right; by exists (Job 3%positive)].
  - apply (proj1 (proj2 (via_job_assignment s PyNone)));
      [reflexivity | left; reflexivity].
  - apply (proj2 (proj2 (via_job_assignment JobState.unset (Str "0f3a")))).
    reflexivity.
Defined.

(** ** Explanations *)

(** *** What [repr] makes of a text *)

Lemma append_assoc (a b c : string) : (a +:+ b) +:+ c = a +:+ (b +:+ c).
Proof.
  induction a as [| x a IH]; [reflexivity |].
  change (String x ((a +:+ b) +:+ c) = String x (a +:+ (b +:+ c))).
  by f_equal.
Qed.

Lemma repr_char_read_back (q c : ascii) (rest : string) :
  q = Py.quote1 \/ q = Py.quote2 ->
  Py.unrepr_body q (Py.repr_char q c +:+ rest)
  = Py.cons_char c (Py.unrepr_body q rest).
Proof.
  intros [-> | ->];
    destruct c as [[|] [|] [|] [|] [|] [|] [|] [|]]; reflexivity.
Qed.

Lemma repr_body_read_back (q : ascii) (s : string) :
  q = Py.quote1 \/ q = Py.quote2 ->
  Py.unrepr_body q (Py.repr_body q s +:+ String q EmptyString) = Some s.
Proof.
  intros Hq. induction s as [| c s IH].
  - destruct Hq as [-> | ->]; reflexivity.
  - change (Py.repr_body q (String c s))
      with (Py.repr_char q c +:+ Py.repr_body q s).
    rewrite append_assoc.
    rewrite repr_char_read_back by exact Hq. by rewrite IH.
Qed.

Lemma repr_read_back (s : string) : Py.unrepr (Py.repr s) = Some s.
Proof.
  unfold Py.repr.
  destruct (Py.contains Py.quote1 s && negb (Py.contains Py.quote2 s)).
  - apply (repr_body_read_back Py.quote2). by right.
  - apply (repr_body_read_back Py.quote1). by left.
Qed.

Lemma repr_char_verbatim (q c : ascii) :
  Py.isprintable c = true ->
  Ascii.eqb c q = false ->
  Ascii.eqb c Py.backslash = false ->
  Py.repr_char q c = String c EmptyString.
Proof.
  intros Hp Hq Hb. unfold Py.repr_char. rewrite Hq, Hb, Hp. simpl.
  destruct (Ascii.eqb c (ascii_of_nat 9)) eqn:E9;
    [apply Ascii.eqb_eq in E9; subst c; discriminate Hp |].
  destruct (Ascii.eqb c (ascii_of_nat 10)) eqn:E10;
    [apply Ascii.eqb_eq in E10; subst c; discriminate Hp |].
  destruct (Ascii.eqb c (ascii_of_nat 13)) eqn:E13;
    [apply Ascii.eqb_eq in E13; subst c; discriminate Hp |].
  reflexivity.
Qed.

Lemma repr_body_verbatim (q : ascii) (s : string) :
  Py.verbatim_in q s = true -> Py.repr_body q s = s.
Proof.
  induction s as [| c s IH]; [reflexivity |].
  simpl. rewrite !andb_true_iff, !negb_true_iff.
  intros [[[Hp Hq] Hb] Hs].
  rewrite (repr_char_verbatim q c Hp Hq Hb), (IH Hs). reflexivity.
Qed.

Lemma repr_verbatim (s : string) :
  Py.verbatim s = true -> Py.repr s = Py.quoted s.
Proof.
  intros H. unfold Py.repr, Py.quoted.
  fold (Py.quote_for s). by rewrite (repr_body_verbatim _ s H).
Qed.

(** *** What [__str__] returns *)

Lemma append_empty_r (s : string) : s +:+ EmptyString = s.
Proof.
  induction s as [| a s IH]; [reflexivity |].
  change (String a (s +:+ EmptyString) = String a s). by f_equal.
Qed.

Lemma str_undesired (h : heap) (rj : option loc)
    (re : option ResourceExpression.t) :
  JobReadinessInhibitor.__str__ h (built UNDESIRED rj re) = ret "undesired".
Proof. reflexivity. Qed.

Lemma str_pending_dep (h : heap) (l : loc) (jd : JobDefinition.t)
    (re : option ResourceExpression.t) :
  h !! l = Some jd ->
  JobReadinessInhibitor.__str__ h (built PENDING_DEP (Some l) re)
  = ret ("required dependency " +:+ Py.repr (JobDefinition.id jd)
         +:+ " did not run yet").
Proof.
  intros Hl. unfold JobReadinessInhibitor.__str__, related_job_id, deref.
  simpl. rewrite Hl. reflexivity.
Qed.

Lemma str_failed_dep (h : heap) (l : loc) (jd : JobDefinition.t)
    (re : option ResourceExpression.t) :
  h !! l = Some jd ->
  JobReadinessInhibitor.__str__ h (built FAILED_DEP (Some l) re)
  = ret ("required dependency " +:+ Py.repr (JobDefinition.id jd)
         +:+ " has failed").
Proof.
  intros Hl. unfold JobReadinessInhibitor.__str__, related_job_id, deref.
  simpl. rewrite Hl. reflexivity.
Qed.

Lemma str_pending_resource (h : heap) (rj : option loc)
    (e : ResourceExpression.t) :
  JobReadinessInhibitor.__str__ h (built PENDING_RESOURCE rj (Some e))
  = ret ("resource expression " +:+ Py.repr (ResourceExpression.text e)
         +:+ " could not be evaluated because the resource it depends on"
         +:+ " did not run yet").
Proof. reflexivity. Qed.

Lemma str_failed_resource (h : heap) (rj : option loc)
    (e : ResourceExpression.t) :
  JobReadinessInhibitor.__str__ h (built FAILED_RESOURCE rj (Some e))
  = ret ("resource expression " +:+ Py.repr (ResourceExpression.text e)
         +:+ " evaluates to false").
Proof. reflexivity. Qed.

Lemma append_nonempty_r (a b : string) :
  b <> EmptyString -> a +:+ b <> EmptyString.
Proof. destruct a; [trivial | discriminate]. Qed.

Lemma last_char_append (a b : string) :
  b <> EmptyString -> last_char (a +:+ b) = last_char b.
Proof.
  intros Hb. induction a as [| c a IH]; [reflexivity |].
  change (last_char (String c (a +:+ b)) = last_char b).
  pose proof (append_nonempty_r a b Hb) as Hab. simpl.
  destruct (a +:+ b); [congruence | exact IH].
Qed.

Lemma shape_framed (before after x : string) :
  after <> EmptyString ->
  last_char (before +:+ x +:+ after) = last_char after.
Proof.
  intros Ha. rewrite last_char_append by by apply append_nonempty_r.
  by apply last_char_append.
Qed.

(** The explanation of a constructed inhibitor has the shape of its cause. *)
Lemma str_shape (h : heap) (c : Z) (rj : option loc)
    (re : option ResourceExpression.t) (i : JobReadinessInhibitor.t)
    (s : string) :
  JobReadinessInhibitor.__init__ c rj re = ret i ->
  JobReadinessInhibitor.__str__ h i = ret s ->
  shape s = shape_of_cause c.
Proof.
  intros Hi Hs. apply init_returns in Hi as (-> & Hk & Hj & He).
  known_cause Hk.
  - rewrite str_undesired in Hs. by injection Hs as <-.
  - destruct rj as [l |]; [| by discriminate Hj].
    destruct (h !! l) as [jd |] eqn:Hl.
    + rewrite (str_pending_dep h l jd re Hl) in Hs. injection Hs as <-.
      unfold shape. by rewrite shape_framed.
    + unfold JobReadinessInhibitor.__str__, related_job_id, deref in Hs.
      simpl in Hs. rewrite Hl in Hs. discriminate Hs.
  - destruct rj as [l |]; [| by discriminate Hj].
    destruct (h !! l) as [jd |] eqn:Hl.
    + rewrite (str_failed_dep h l jd re Hl) in Hs. injection Hs as <-.
      unfold shape. by rewrite shape_framed.
    + unfold JobReadinessInhibitor.__str__, related_job_id, deref in Hs.
      simpl in Hs. rewrite Hl in Hs. discriminate Hs.
  - destruct re as [e |]; [| discriminate He; by left].
    rewrite str_pending_resource in Hs. injection Hs as <-.
    unfold shape. by rewrite shape_framed.
  - destruct re as [e |]; [| discriminate He; by right].
    rewrite str_failed_resource in Hs. injection Hs as <-.
    unfold shape. by rewrite shape_framed.
Qed.

Lemma explanations_differ (h : heap) (c1 c2 : Z) (rj1 rj2 : option loc)
    (re1 re2 : option ResourceExpression.t)
    (i1 i2 : JobReadinessInhibitor.t) (s1 s2 : string) :
  JobReadinessInhibitor.__init__ c1 rj1 re1 = ret i1 ->
  JobReadinessInhibitor.__init__ c2 rj2 re2 = ret i2 ->
  JobReadinessInhibitor.__str__ h i1 = ret s1 ->
  JobReadinessInhibitor.__str__ h i2 = ret s2 ->
  c1 <> c2 -> s1 <> s2.
Proof.
  intros H1 H2 Hs1 Hs2 Hc Heq. subst s2.
  pose proof (str_shape _ _ _ _ _ _ H1 Hs1) as E1.
  pose proof (str_shape _ _ _ _ _ _ H2 Hs2) as E2.
  rewrite E1 in E2.
  apply init_returns in H1 as (_ & K1 & _).
  apply init_returns in H2 as (_ & K2 & _).
  known_cause K1; known_cause K2; try (by apply Hc); discriminate E2.
Qed.

(** C7: for an inhibitor the constructor returned, whose related job, if any,
    is in the store, cause_name is the display name of its cause and the
    explanation is, by cause: for UNDESIRED the text "undesired", whatever
    job or expression rides along; for PENDING_DEP and FAILED_DEP a text
    around the repr of the related job's id, "did not run yet" or "has
    failed"; for PENDING_RESOURCE and FAILED_RESOURCE a text around the repr
    of the related expression's text, "did not run yet" or "evaluates to
    false". Two constructed inhibitors with different causes never have the
    same explanation. The repr in these texts names the id or the expression:
    it is the text itself between quotes when every character of it is
    printable and none is the backslash or the delimiting quote, and in every
    case the text is read back from it. *)
Theorem inhibitor_explanation (h : heap) (c : Z) (rj : option loc)
    (re : option ResourceExpression.t) (i : JobReadinessInhibitor.t) :
  JobReadinessInhibitor.__init__ c rj re = ret i ->
  (forall l : loc, rj = Some l -> is_Some (h !! l)) ->
  (c = UNDESIRED \/ c = PENDING_DEP \/ c = FAILED_DEP
   \/ c = PENDING_RESOURCE \/ c = FAILED_RESOURCE)
  /\ (c = UNDESIRED ->
      cause_name i = ret "UNDESIRED"
      /\ JobReadinessInhibitor.__str__ h i = ret "undesired")
  /\ (c = PENDING_DEP ->
      cause_name i = ret "PENDING_DEP"
      /\ exists (l : loc) (jd : JobDefinition.t),
          rj = Some l /\ h !! l = Some jd
          /\ JobReadinessInhibitor.__str__ h i
             = ret ("required dependency " +:+ Py.repr (JobDefinition.id jd)
                    +:+ " did not run yet"))
  /\ (c = FAILED_DEP ->
      cause_name i = ret "FAILED_DEP"
      /\ exists (l : loc) (jd : JobDefinition.t),
          rj = Some l /\ h !! l = Some jd
          /\ JobReadinessInhibitor.__str__ h i
             = ret ("required dependency " +:+ Py.repr (JobDefinition.id jd)
                    +:+ " has failed"))
  /\ (c = PENDING_RESOURCE ->
      cause_name i = ret "PENDING_RESOURCE"
      /\ exists e : ResourceExpression.t,
          re = Some e
          /\ JobReadinessInhibitor.__str__ h i
             = ret ("resource expression "
                    +:+ Py.repr (ResourceExpression.text e)
                    +:+ " could not be evaluated because the resource it"
                    +:+ " depends on did not run yet"))
  /\ (c = FAILED_RESOURCE ->
      cause_name i = ret "FAILED_RESOURCE"
      /\ exists e : ResourceExpression.t,
          re = Some e
          /\ JobReadinessInhibitor.__str__ h i
             = ret ("resource expression "
                    +:+ Py.repr (ResourceExpression.text e)
                    +:+ " evaluates to false"))
  /\ (forall (c' : Z) (rj' : option loc) (re' : option ResourceExpression.t)
        (i' : JobReadinessInhibitor.t) (s s' : string),
         JobReadinessInhibitor.__init__ c' rj' re' = ret i' ->
         JobReadinessInhibitor.__str__ h i = ret s ->
         JobReadinessInhibitor.__str__ h i' = ret s' ->
         c <> c' -> s <> s')
  /\ (forall s : string, Py.verbatim s = true -> Py.repr s = Py.quoted s)
  /\ (forall s : string, Py.unrepr (Py.repr s) = Some s).
Proof.
  intros Hi Hh. pose proof Hi as Hi0.
  apply init_returns in Hi as (-> & Hk & Hj & He).
  split; [by apply cause_in_range |].
  split; [intros ->; split; reflexivity |].
  split.
  { intros ->. split; [reflexivity |].
    destruct rj as [l |]; [| by discriminate Hj].
    destruct (Hh l eq_refl) as [jd Hl]. exists l, jd.
    split; [reflexivity |]. split; [assumption | by apply str_pending_dep]. }
  split.
  { intros ->. split; [reflexivity |].
    destruct rj as [l |]; [| by discriminate Hj].
    destruct (Hh l eq_refl) as [jd Hl]. exists l, jd.
    split; [reflexivity |]. split; [assumption | by apply str_failed_dep]. }
  split.
  { intros ->. split; [reflexivity |].
    destruct re as [e |]; [| discriminate He; by left].
    exists e. split; reflexivity. }
  split.
  { intros ->. split; [reflexivity |].
    destruct re as [e |]; [| discriminate He; by right].
    exists e. split; reflexivity. }
  split.
  { intros c' rj' re' i' s s' Hi' Hs Hs'.
    by apply (explanations_differ h c c' rj rj' re re' (built c rj re)
                i' s s'). }
  split; [exact repr_verbatim | exact repr_read_back].
Qed.

Lemma inhibitor_explanation_witness :
  let h : heap := {[7%positive := {| JobDefinition.id := "usb/detect";
                                     JobDefinition.category_id := "usb" |}]} in
  let failed := built FAILED_DEP (Some 7%positive) None in
  let unmet :=
    built FAILED_RESOURCE (Some 7%positive)
      (Some {| ResourceExpression.text := "package.name == 'fwts'" |}) in
  cause_name failed = ret "FAILED_DEP"
  /\ JobReadinessInhibitor.__str__ h failed
     = ret "required dependency 'usb/detect' has failed"
  /\ cause_name unmet = ret "FAILED_RESOURCE"
  /\ JobReadinessInhibitor.__str__ h unmet
     = ret ("resource expression "
            +:+ String Py.quote2
                  ("package.name == 'fwts'"
                   +:+ String Py.quote2 " evaluates to false")).
Proof.
  intros h failed unmet.
  assert (forall l : loc, Some 7%positive = Some l -> is_Some (h !! l)) as Hh.
  { intros l [= <-]. eexists. apply lookup_singleton_eq. }
  destruct (inhibitor_explanation h FAILED_DEP (Some 7%positive) None failed
              eq_refl Hh) as (_ & _ & _ & Hdep & _).
  destruct (Hdep eq_refl) as (Hname & l & jd & Hrj & Hl & Hs).
  injection Hrj as <-. unfold h in Hl. rewrite lookup_singleton_eq in Hl.
  injection Hl as <-.
  destruct (inhibitor_explanation h FAILED_RESOURCE (Some 7%positive)
              (Some {| ResourceExpression.text := "package.name == 'fwts'" |})
              unmet eq_refl Hh) as (_ & _ & _ & _ & _ & Hres & _).
  destruct (Hres eq_refl) as (Hname' & e & He & Hs').
  injection He as <-.
  split; [exact Hname |]. split; [exact Hs |].
  split; [exact Hname' | exact Hs'].
Defined.

(** ** The readiness description *)

Lemma strs_returns (h : heap) (l : list JobReadinessInhibitor.t)
    (parts : list string) :
  Forall2 (fun i p => JobReadinessInhibitor.__str__ h i = ret p) l parts ->
  strs h l = ret parts.
Proof.
  induction 1 as [| i p l parts Hi _ IH]; [reflexivity |].
  simpl. rewrite Hi. simpl. rewrite IH. reflexivity.
Qed.

Lemma str_returns (h : heap) (i : JobReadinessInhibitor.t) :
  explains h i -> exists p, JobReadinessInhibitor.__str__ h i = ret p.
Proof.
  intros (c & rj & re & Hi & Hh).
  apply init_returns in Hi as (-> & Hk & Hj & He). known_cause Hk.
  - eexists. apply str_undesired.
  - destruct rj as [l |]; [| by discriminate Hj].
    destruct (Hh l eq_refl) as [jd Hl]. eexists. by apply str_pending_dep.
  - destruct rj as [l |]; [| by discriminate Hj].
    destruct (Hh l eq_refl) as [jd Hl]. eexists. by apply str_failed_dep.
  - destruct re as [e |]; [| discriminate He; by left].
    eexists. apply str_pending_resource.
  - destruct re as [e |]; [| discriminate He; by right].
    eexists. apply str_failed_resource.
Qed.

Lemma strs_total (h : heap) (l : list JobReadinessInhibitor.t) :
  Forall (explains h) l ->
  exists parts,
    Forall2 (fun i p => JobReadinessInhibitor.__str__ h i = ret p) l parts.
Proof.
  induction 1 as [| i l Hi _ [parts IH]]; [by exists [] |].
  destruct (str_returns h i Hi) as [p Hp]. exists (p :: parts).
  by constructor.
Qed.

Lemma format_cannot_be_started (x : string) :
  Py.format (gettext "job cannot be started: {}") [x]
  = ret ("job cannot be started: " +:+ x).
Proof.
  change (ret ("job cannot be started: " +:+ (x +:+ EmptyString))
          = ret ("job cannot be started: " +:+ x)).
  by rewrite append_empty_r.
Qed.

(** C6, as stated, fails: with no inhibitor the description is "job can be
    started", not "can be started"; with inhibitors it is not the joined
    explanations alone, they follow the text "job cannot be started: ". *)
Lemma readiness_description_has_prefix :
  let blocked := returned (JobState.new 7%positive) in
  let ready := instance_after (__set__ readiness_inhibitor_list blocked []) in
  get_readiness_description ∅ ready = ret "job can be started"
  /\ get_readiness_description ∅ ready <> ret "can be started"
  /\ get_readiness_description ∅ blocked
     = ret "job cannot be started: undesired"
  /\ get_readiness_description ∅ blocked <> ret (Py.join ", " ["undesired"]).
Proof. repeat split; discriminate. Qed.

(** C6, amended: get_readiness_description returns "job can be started" when
    readiness_inhibitor_list is empty; otherwise it returns "job cannot be
    started: " followed by the explanation of every inhibitor of the list, in
    list order, joined with a comma and a space. It returns for every list of
    constructed inhibitors whose related jobs are in the store. *)
Theorem readiness_description (h : heap) (s : JobState.t)
    (l : list JobReadinessInhibitor.t) :
  __get__ readiness_inhibitor_list s = Val l ->
  Forall (explains h) l ->
  exists parts : list string,
    Forall2 (fun i p => JobReadinessInhibitor.__str__ h i = ret p) l parts
    /\ get_readiness_description h s
       = ret (match l with
              | [] => "job can be started"
              | _ :: _ => "job cannot be started: " +:+ Py.join ", " parts
              end).
Proof.
  intros Hl Hall. destruct (strs_total h l Hall) as [parts Hparts].
  exists parts. split; [assumption |].
  unfold get_readiness_description. rewrite Hl.
  destruct l as [| i l']; [reflexivity |].
  rewrite (strs_returns _ _ _ Hparts). simpl.
  apply format_cannot_be_started.
Qed.

Lemma readiness_description_witness :
  let h : heap := {[7%positive := {| JobDefinition.id := "usb/detect";
                                     JobDefinition.category_id := "usb" |}]} in
  let l := [built PENDING_DEP (Some 7%positive) None;
            built FAILED_RESOURCE (Some 7%positive)
              (Some {| ResourceExpression.text := "cpu.cores > 2" |})] in
  let s := instance_after
             (__set__ readiness_inhibitor_list
                (returned (JobState.new 3%positive)) l) in
  exists parts : list string,
    Forall2 (fun i p => JobReadinessInhibitor.__str__ h i = ret p) l parts
    /\ get_readiness_description h s
       = ret ("job cannot be started: " +:+ Py.join ", " parts).
Proof.
  intros h l s. apply (readiness_description h s l); [reflexivity |].
  assert (forall x : loc, Some 7%positive = Some x -> is_Some (h !! x)) as Hh.
  { intros x [= <-]. eexists. apply lookup_singleton_eq. }
  repeat constructor.
  - exists PENDING_DEP, (Some 7%positive), None. by split.
  - exists FAILED_RESOURCE, (Some 7%positive),
      (Some {| ResourceExpression.text := "cpu.cores > 2" |}). by split.
Defined.

Example readiness_description_example :
  let h : heap := {[7%positive := {| JobDefinition.id := "usb/detect";
                                     JobDefinition.category_id := "usb" |}]} in
  let l := [built PENDING_DEP (Some 7%positive) None;
            built FAILED_RESOURCE (Some 7%positive)
              (Some {| ResourceExpression.text := "cpu.cores > 2" |})] in
  get_readiness_description h
    (instance_after
       (__set__ readiness_inhibitor_list (returned (JobState.new 3%positive))
          l))
  = ret ("job cannot be started: required dependency 'usb/detect' did not"
         +:+ " run yet, resource expression 'cpu.cores > 2' evaluates to"
         +:+ " false").
Proof. reflexivity. Qed.

(** * More of the module *)

(** ** What the constructor reports *)

Lemma display_of_known (c : Z) (name : string) :
  _cause_display !! c = Some name ->
  contains_key _cause_display c = true
  /\ getitem _cause_display c = ret name.
Proof. intros H. unfold contains_key, getitem. by rewrite H. Qed.

(** X1: when a required field is missing the ValueError names the field and
    the display name of the cause; a missing related_job is reported before a
    missing related_expression, so with both missing the message is the one
    about related_job. *)
Theorem init_error_messages (c : Z) (name : string) (rj : option loc)
    (re : option ResourceExpression.t) :
  _cause_display !! c = Some name ->
  (c <> UNDESIRED ->
   JobReadinessInhibitor.__init__ c None re
   = raise (ValueError
              ("related_job must not be None when cause is " +:+ name)))
  /\ (c = PENDING_RESOURCE \/ c = FAILED_RESOURCE ->
      rj <> None ->
      JobReadinessInhibitor.__init__ c rj None
      = raise (ValueError
                 ("related_expression must not be None when cause is "
                  +:+ name))).
Proof.
  intros Hname. pose proof (display_of_known c name Hname) as [Hk _].
  split.
  - intros Hc. known_cause Hk; try (exfalso; by apply Hc);
      vm_compute in Hname; injection Hname as <-; by destruct re.
  - intros Hc Hj. destruct rj as [l |]; [| by exfalso].
    destruct Hc as [-> | ->]; vm_compute in Hname; by injection Hname as <-.
Qed.

Lemma init_error_messages_witness :
  JobReadinessInhibitor.__init__ PENDING_RESOURCE None None
  = raise (ValueError
             "related_job must not be None when cause is PENDING_RESOURCE")
  /\ JobReadinessInhibitor.__init__ FAILED_RESOURCE (Some 7%positive) None
     = raise (ValueError
                ("related_expression must not be None when cause is "
                 +:+ "FAILED_RESOURCE")).
Proof.
  split.
  - apply (proj1 (init_error_messages PENDING_RESOURCE "PENDING_RESOURCE"
                    None None eq_refl)). causes_differ.
  - apply (proj2 (init_error_messages FAILED_RESOURCE "FAILED_RESOURCE"
                    (Some 7%positive) None eq_refl));
      [by right | discriminate].
Defined.

(** X2: the constructor never raises anything but ValueError: the lookups of
    the display name while a message is built cannot fail, because the cause
    was checked first. *)
Theorem init_raises_only_ValueError (c : Z) (rj : option loc)
    (re : option ResourceExpression.t) :
  is_ValueError (JobReadinessInhibitor.__init__ c rj re)
  = raises (JobReadinessInhibitor.__init__ c rj re).
Proof.
  destruct (contains_key _cause_display c) eqn:Hk.
  - known_cause Hk; by destruct rj, re.
  - by rewrite (init_unsupported c rj re Hk).
Qed.

(** X4: the display names tell the causes apart: cause_name returns on every
    constructed inhibitor, and two constructed inhibitors have the same
    cause_name exactly when they have the same cause. *)
Theorem cause_name_injective (c c' : Z) (rj rj' : option loc)
    (re re' : option ResourceExpression.t)
    (i i' : JobReadinessInhibitor.t) :
  JobReadinessInhibitor.__init__ c rj re = ret i ->
  JobReadinessInhibitor.__init__ c' rj' re' = ret i' ->
  raises (cause_name i) = false
  /\ (cause_name i = cause_name i' <-> c = c').
Proof.
  intros H H'. apply init_returns in H as (-> & Hk & _).
  apply init_returns in H' as (-> & Hk' & _).
  known_cause Hk; known_cause Hk';
    (split; [reflexivity | split; [intros E; (reflexivity || discriminate E)
                                  | intros E; (reflexivity || discriminate E)]]).
Qed.

Lemma cause_name_injective_witness :
  raises (cause_name (built PENDING_DEP (Some 7%positive) None)) = false
  /\ (cause_name (built PENDING_DEP (Some 7%positive) None)
      = cause_name (built UNDESIRED None None)
      <-> PENDING_DEP = UNDESIRED).
Proof.
  apply (cause_name_injective PENDING_DEP UNDESIRED (Some 7%positive) None
           None None); reflexivity.
Defined.

(** ** The job of a state and its category *)

(** X5: the job of a state can be replaced at any time, the filter of the
    field lets every value through; the assignment touches no other
    attribute, and while the category is still inherited the next read of
    effective_category_id follows the new job definition. *)
Theorem job_can_be_replaced (s : JobState.t) (j : loc) :
  exists s' : JobState.t,
    __set__ job s j = Stored s'
    /\ _job s' = Val j
    /\ _readiness_inhibitor_list s' = _readiness_inhibitor_list s
    /\ _result s' = _result s
    /\ _via_job s' = _via_job s
    /\ _effective_category_id s' = _effective_category_id s
    /\ forall (h : heap) (jd : JobDefinition.t),
        _effective_category_id s = Val JOB_VALUE ->
        h !! j = Some jd ->
        OverridableJobField.__get__ effective_category_id h s'
        = ret (Val (Str (JobDefinition.category_id jd))).
Proof.
  eexists. split; [reflexivity |]. repeat split.
  intros h jd Hc Hj.
  by apply (sentinel_reads_job h _ j jd).
Qed.

(** X6: an override is undone by storing the sentinel again: after any value
    was written to effective_category_id, writing JOB_VALUE makes the next
    read return the category_id of the job definition once more. *)
Theorem override_can_be_undone (h : heap) (s : JobState.t) (l : loc)
    (jd : JobDefinition.t) (v : object) :
  _job s = Val l ->
  h !! l = Some jd ->
  let field := OverridableJobField.field effective_category_id in
  let overridden := instance_after (__set__ field s v) in
  let restored := instance_after (__set__ field overridden JOB_VALUE) in
  __set__ field overridden JOB_VALUE = Stored restored
  /\ OverridableJobField.__get__ effective_category_id h restored
     = ret (Val (Str (JobDefinition.category_id jd))).
Proof.
  intros Hj Hl field overridden restored. split; [reflexivity |].
  by apply (sentinel_reads_job h restored l jd).
Qed.

Lemma override_can_be_undone_witness :
  let h : heap := {[7%positive := {| JobDefinition.id := "usb/detect";
                                     JobDefinition.category_id := "usb" |}]} in
  let s := returned (JobState.new 7%positive) in
  let field := OverridableJobField.field effective_category_id in
  let overridden := instance_after (__set__ field s (Str "audio")) in
  let restored := instance_after (__set__ field overridden JOB_VALUE) in
  __set__ field overridden JOB_VALUE = Stored restored
  /\ OverridableJobField.__get__ effective_category_id h restored
     = ret (Val (Str "usb")).
Proof.
  intros h s.
  apply (override_can_be_undone h s 7%positive
           {| JobDefinition.id := "usb/detect";
              JobDefinition.category_id := "usb" |} (Str "audio"));
    [reflexivity | apply lookup_singleton_eq].
Defined.

(** ** Runs of assignments to via_job *)

Lemma via_job_step (s : JobState.t) (held v : object) :
  _via_job s = Val held ->
  _via_job (instance_after (__set__ via_job s v))
  = Val (if isinstance_JobDefinition v then v else held).
Proof.
  intros H. unfold __set__. simpl. rewrite H, via_filter_later.
  destruct (isinstance_JobDefinition v); simpl; [reflexivity | exact H].
Qed.

Lemma last_job_is_job (held : object) (vs : list object) :
  isinstance_JobDefinition held = true ->
  isinstance_JobDefinition (last_job held vs) = true.
Proof.
  revert held. induction vs as [| v vs IH]; intros held H; [exact H |].
  simpl. apply IH. by destruct (isinstance_JobDefinition v) eqn:E.
Qed.

(** X7: over any run of assignments to via_job on a state that already holds
    a value there, the attribute ends up holding the last job definition of
    the run, or what it held before when the run has none; so once it holds a
    job definition it holds one ever after, and it can never be set back to
    None. *)
Theorem via_job_over_a_run (s : JobState.t) (held : object)
    (vs : list object) :
  _via_job s = Val held ->
  _via_job (assign_via_job_all s vs) = Val (last_job held vs)
  /\ (isinstance_JobDefinition held = true ->
      isinstance_JobDefinition (last_job held vs) = true).
Proof.
  intros H. split; [| apply last_job_is_job].
  revert s held H. induction vs as [| v vs IH]; intros s held H; [exact H |].
  simpl. apply IH. by apply via_job_step.
Qed.

Lemma via_job_over_a_run_witness :
  let s := returned (JobState.new 7%positive) in
  let vs := [Str "0f3a"; Job 3%positive; PyNone; Job 5%positive; Int 0] in
  _via_job (assign_via_job_all s vs) = Val (last_job PyNone vs)
  /\ (isinstance_JobDefinition PyNone = true ->
      isinstance_JobDefinition (last_job PyNone vs) = true).
Proof.
  intros s vs. apply (via_job_over_a_run s PyNone vs). reflexivity.
Defined.

(** ** The two readiness queries *)

Lemma cannot_is_not_can (x : string) :
  "job cannot be started: " +:+ x <> gettext "job can be started".
Proof. discriminate. Qed.

(** X8: the two queries agree: on a state whose inhibitors are constructed
    and have their related jobs in the store, can_start returns true exactly
    when get_readiness_description returns "job can be started". *)
Theorem description_agrees_with_can_start (h : heap) (s : JobState.t)
    (l : list JobReadinessInhibitor.t) :
  __get__ readiness_inhibitor_list s = Val l ->
  Forall (explains h) l ->
  raises (get_readiness_description h s) = false
  /\ (can_start s = ret true
      <-> get_readiness_description h s = ret "job can be started").
Proof.
  intros Hl Hall. destruct (strs_total h l Hall) as [parts Hparts].
  unfold can_start, get_readiness_description. rewrite Hl.
  destruct l as [| i l']; [by repeat split |].
  rewrite (strs_returns _ _ _ Hparts).
  cbv beta iota delta [bind ret truth].
  rewrite format_cannot_be_started. split; [reflexivity |].
  split; [discriminate |].
  intros E. exfalso. apply (cannot_is_not_can (Py.join ", " parts)).
  by injection E.
Qed.

Lemma description_agrees_with_can_start_witness :
  let s := returned (JobState.new 7%positive) in
  raises (get_readiness_description ∅ s) = false
  /\ (can_start s = ret true
      <-> get_readiness_description ∅ s = ret "job can be started").
Proof.
  intros s.
  apply (description_agrees_with_can_start ∅ s
           [UndesiredJobReadinessInhibitor]); [reflexivity |].
  repeat constructor. exists UNDESIRED, None, None.
  split; [reflexivity | discriminate].
Defined.

Lemma job_can_be_replaced_witness :
  let h : heap := {[3%positive := {| JobDefinition.id := "usb/detect";
                                     JobDefinition.category_id := "usb" |}]} in
  let s := returned (JobState.new 7%positive) in
  exists s' : JobState.t,
    __set__ job s 3%positive = Stored s'
    /\ OverridableJobField.__get__ effective_category_id h s'
       = ret (Val (Str "usb")).
Proof.
  intros h s.
  destruct (job_can_be_replaced s 3%positive)
    as (s' & Hset & _ & _ & _ & _ & _ & Hread).
  exists s'. split; [exact Hset |].
  apply (Hread h {| JobDefinition.id := "usb/detect";
                    JobDefinition.category_id := "usb" |});
    [reflexivity | apply lookup_singleton_eq].
Defined.

(** ** The two formatters *)

Lemma format_of_strs_below (n : nat) :
  forall (tpl : string) (args : list string),
    (String.length tpl < n)%nat ->
    PyValues.format tpl (map PyValues.of_str args) = Py.format tpl args.
Proof.
  induction n as [| n IH]; intros tpl args Hn; [lia |].
  destruct tpl as [| c1 r1]; [reflexivity |].
  simpl in Hn.
  assert (forall a, PyValues.format r1 (map PyValues.of_str a)
                    = Py.format r1 a) as H1 by (intros; apply IH; lia).
  simpl. destruct (Ascii.eqb c1 "{"); [| by rewrite H1].
  destruct r1 as [| c2 r2]; [reflexivity |].
  simpl in Hn.
  destruct (Ascii.eqb c2 "}").
  - destruct args as [| a args]; [reflexivity |].
    simpl. rewrite IH by lia. reflexivity.
  - destruct r2 as [| c3 [| c4 r4]]; try (by rewrite H1).
    simpl in Hn.
    destruct (Ascii.eqb c2 "!" && Ascii.eqb c3 "r" && Ascii.eqb c4 "}");
      [| by rewrite H1].
    destruct args as [| a args]; [reflexivity |].
    simpl. rewrite IH by lia. reflexivity.
Qed.

(** On [str] arguments the formatter over renderings is the formatter over
    strings. *)
Lemma format_of_strs (tpl : string) (args : list string) :
  PyValues.format tpl (map PyValues.of_str args) = Py.format tpl args.
Proof. apply (format_of_strs_below (S (String.length tpl))). lia. Qed.

(** ** The debugging representation *)

Section Repr.

Variable repr_job : JobDefinition.t -> string.
Variable repr_expression : ResourceExpression.t -> string.

Lemma repr_of_built (h : heap) (c : Z) (name : string) (rj : option loc)
    (re : option ResourceExpression.t) :
  _cause_display !! c = Some name ->
  (forall l : loc, rj = Some l -> is_Some (h !! l)) ->
  JobReadinessInhibitor.__repr__ repr_job repr_expression h (built c rj re)
  = ret ("<JobReadinessInhibitor cause:" +:+ name
         +:+ " related_job:" +:+ job_text repr_job h rj
         +:+ " related_expression:" +:+ expression_text repr_expression re
         +:+ ">").
Proof.
  intros Hname Hh.
  unfold JobReadinessInhibitor.__repr__, cause_name, getitem. simpl.
  rewrite Hname.
  unfold related_job_repr, related_expression_repr, deref, job_text,
    expression_text. simpl.
  destruct rj as [l |].
  - destruct (Hh l eq_refl) as [jd Hl]. rewrite Hl. by destruct re.
  - by destruct re.
Qed.

(** X9: for a constructed inhibitor whose related job, if any, is in the
    store, __repr__ returns the text "<JobReadinessInhibitor cause:NAME
    related_job:J related_expression:E>" with NAME the cause_name, and J and
    E the repr of the related job and expression or "None"; the texts of two
    constructed inhibitors with different causes differ. *)
Theorem repr_shows_the_cause (h : heap) (c : Z) (rj : option loc)
    (re : option ResourceExpression.t) (i : JobReadinessInhibitor.t) :
  JobReadinessInhibitor.__init__ c rj re = ret i ->
  (forall l : loc, rj = Some l -> is_Some (h !! l)) ->
  (exists name : string,
      cause_name i = ret name
      /\ JobReadinessInhibitor.__repr__ repr_job repr_expression h i
         = ret ("<JobReadinessInhibitor cause:" +:+ name
                +:+ " related_job:" +:+ job_text repr_job h rj
                +:+ " related_expression:"
                +:+ expression_text repr_expression re +:+ ">"))
  /\ (forall (c' : Z) (rj' : option loc) (re' : option ResourceExpression.t)
        (i' : JobReadinessInhibitor.t) (t t' : string),
         JobReadinessInhibitor.__init__ c' rj' re' = ret i' ->
         (forall l : loc, rj' = Some l -> is_Some (h !! l)) ->
         JobReadinessInhibitor.__repr__ repr_job repr_expression h i = ret t ->
         JobReadinessInhibitor.__repr__ repr_job repr_expression h i'
         = ret t' ->
         c <> c' -> t <> t').
Proof.
  intros Hi Hh. apply init_returns in Hi as (-> & Hk & _). split.
  - known_cause Hk; eexists; (split; [reflexivity |]);
      by apply repr_of_built.
  - intros c' rj' re' i' t t' Hi' Hh' Ht Ht' Hc ->.
    apply init_returns in Hi' as (-> & Hk' & _).
    known_cause Hk; known_cause Hk'; try (by apply Hc);
      erewrite repr_of_built in Ht by (reflexivity || assumption);
      erewrite repr_of_built in Ht' by (reflexivity || assumption);
      rewrite <- Ht' in Ht; discriminate Ht.
Qed.

End Repr.

Lemma repr_shows_the_cause_witness :
  let h : heap := {[7%positive := {| JobDefinition.id := "usb/detect";
                                     JobDefinition.category_id := "usb" |}]} in
  exists name : string,
    cause_name (built FAILED_DEP (Some 7%positive) None) = ret name
    /\ JobReadinessInhibitor.__repr__ JobDefinition.id ResourceExpression.text
         h (built FAILED_DEP (Some 7%positive) None)
       = ret ("<JobReadinessInhibitor cause:" +:+ name
              +:+ " related_job:"
              +:+ job_text JobDefinition.id h (Some 7%positive)
              +:+ " related_expression:"
              +:+ expression_text ResourceExpression.text None +:+ ">").
Proof.
  intros h.
  apply (proj1 (repr_shows_the_cause JobDefinition.id ResourceExpression.text
                  h FAILED_DEP (Some 7%positive) None
                  (built FAILED_DEP (Some 7%positive) None) eq_refl
                  ltac:(intros l [= <-]; eexists; apply lookup_singleton_eq))).
Defined.

(** ** What an explanation reads *)

(** X10: an explanation reads only what it names. For UNDESIRED it is the
    same text whatever the related fields and the store; for PENDING_RESOURCE
    and FAILED_RESOURCE it depends on the text of the expression alone,
    neither on the related job nor on the store; for PENDING_DEP and
    FAILED_DEP it depends on the id of the related job alone. *)
Theorem explanation_reads_what_it_names :
  (forall (h h' : heap) (rj rj' : option loc)
      (re re' : option ResourceExpression.t),
      JobReadinessInhibitor.__str__ h (built UNDESIRED rj re)
      = JobReadinessInhibitor.__str__ h' (built UNDESIRED rj' re'))
  /\ (forall (c : Z) (h h' : heap) (rj rj' : option loc)
        (e e' : ResourceExpression.t),
         c = PENDING_RESOURCE \/ c = FAILED_RESOURCE ->
         ResourceExpression.text e = ResourceExpression.text e' ->
         JobReadinessInhibitor.__str__ h (built c rj (Some e))
         = JobReadinessInhibitor.__str__ h' (built c rj' (Some e')))
  /\ (forall (c : Z) (h h' : heap) (l l' : loc) (jd jd' : JobDefinition.t)
        (re re' : option ResourceExpression.t),
         c = PENDING_DEP \/ c = FAILED_DEP ->
         h !! l = Some jd -> h' !! l' = Some jd' ->
         JobDefinition.id jd = JobDefinition.id jd' ->
         JobReadinessInhibitor.__str__ h (built c (Some l) re)
         = JobReadinessInhibitor.__str__ h' (built c (Some l') re')).
Proof.
  split; [reflexivity |]. split.
  - intros c h h' rj rj' e e' [-> | ->] He.
    + by rewrite !str_pending_resource, He.
    + by rewrite !str_failed_resource, He.
  - intros c h h' l l' jd jd' re re' [-> | ->] Hl Hl' Hid.
    + by rewrite (str_pending_dep h l jd re Hl),
        (str_pending_dep h' l' jd' re' Hl'), Hid.
    + by rewrite (str_failed_dep h l jd re Hl),
        (str_failed_dep h' l' jd' re' Hl'), Hid.
Qed.

Lemma explanation_reads_what_it_names_witness :
  let usb := {| JobDefinition.id := "usb/detect";
                JobDefinition.category_id := "usb" |} in
  let moved := {| JobDefinition.id := "usb/detect";
                  JobDefinition.category_id := "audio" |} in
  JobReadinessInhibitor.__str__ {[7%positive := usb]}
    (built FAILED_DEP (Some 7%positive) None)
  = JobReadinessInhibitor.__str__ {[3%positive := moved]}
      (built FAILED_DEP (Some 3%positive)
         (Some {| ResourceExpression.text := "cpu.cores > 2" |})).
Proof.
  intros usb moved.
  apply (proj2 (proj2 explanation_reads_what_it_names) FAILED_DEP
           {[7%positive := usb]} {[3%positive := moved]} 7%positive 3%positive
           usb moved); [by right | apply lookup_singleton_eq..| reflexivity].
Defined.

(** ** Assigning the inhibitor list *)

(** X12: the inhibitor list has no filter: assigning a list is accepted in
    every state and replaces the list as a whole, and can_start then returns
    true exactly when the assigned list is empty, so assigning the empty list
    to a fresh state makes it startable and assigning the UNDESIRED list
    blocks it again. *)
Theorem list_assignment_sets_readiness (s : JobState.t)
    (l : list JobReadinessInhibitor.t) :
  exists s' : JobState.t,
    __set__ readiness_inhibitor_list s l = Stored s'
    /\ __get__ readiness_inhibitor_list s' = Val l
    /\ (can_start s' = ret true <-> l = [])
    /\ (can_start s' = ret false <-> l <> []).
Proof.
  eexists. split; [reflexivity |]. split; [reflexivity |].
  unfold can_start; simpl.
  destruct l; simpl; split; split; intros H; try reflexivity;
    try discriminate; congruence.
Qed.

(** X13: a job state built from a job definition alone holds the defaults
    its fields declare: the UNDESIRED list, a result without data, no parent
    job, and the sentinel as stored category; a value passed to the
    constructor for a field takes the place of its default, also for via_job,
    whose filter does not check the first assignment. *)
Theorem state_defaults (j : loc)
    (l : option (list JobReadinessInhibitor.t))
    (r : option MemoryJobResult.t) (v c : option object) :
  exists s : JobState.t,
    JobState.__init__ (Some j) l r v c = ret s
    /\ __get__ job s = Val j
    /\ __get__ readiness_inhibitor_list s
       = Val (default [UndesiredJobReadinessInhibitor] l)
    /\ __get__ result s = Val (default {| MemoryJobResult.data := [] |} r)
    /\ __get__ via_job s = Val (default PyNone v)
    /\ _effective_category_id s = Val (default JOB_VALUE c)
    /\ initialised s = true.
Proof.
  eexists. split; [apply state_init_returns |]. by repeat split.
Qed.
